(** * ESP32 HTTP endpoint: the http_hal facade and the LED handler

    A shallow embedding of [main/http_hal.c] and of the request handler of
    [main/main.c].  The facade sits on top of the vendor HTTP server
    (esp_http_server) and of the C heap; both are collaborators whose code is
    not part of the repository.  They are kept abstract in the class
    [Platform]: every theorem about the facade holds for every behaviour of
    the collaborators, and the calls the facade makes are recorded, in the
    order they happen, in a trace of [event]s.

    Conventions.
    - A C pointer that the code tests against NULL is an [option]; [None] is
      NULL.
    - [esp_err_t] and [int] are [Z].
    - The pending-endpoint array [uris[0 .. uris_len-1]] is the list [uris];
      [uris_len] is its length.  [uris_cap] is kept as a number of its own,
      and [register_in_bounds] shows that the array is never written past it.
      The [size_t] counts are kept in [N].  The target's [size_t] has 32
      bits; as long as the block behind [uris] is shorter than 2^31 bytes,
      which holds on any device whose heap is, no count, capacity or byte
      size computed by the code reaches 2^32 and the growth loop does not
      iterate ([ensure_capacity_within_size_t]), so the code computes the
      same numbers.
    - Log output (ESP_LOGI, ESP_LOGE and the log line of the ESP_RETURN_ON_*
      macros) is not part of the model. *)

From Stdlib Require Import ZArith NArith List String Ascii Bool Lia.
From Stdlib Require Import DecimalString.
Import ListNotations.
Local Open Scope Z_scope.

(** ** Error codes and vendor types *)

Module Esp.

Definition esp_err_t := Z.

Definition ESP_OK                : esp_err_t := 0.
Definition ESP_FAIL              : esp_err_t := -1.
Definition ESP_ERR_NO_MEM        : esp_err_t := 0x101.
Definition ESP_ERR_INVALID_ARG   : esp_err_t := 0x102.
Definition ESP_ERR_INVALID_STATE : esp_err_t := 0x103.
Definition ESP_ERR_NOT_FOUND     : esp_err_t := 0x105.

Definition ESP_ERR_HTTPD_BASE            : esp_err_t := 0xb000.
Definition ESP_ERR_HTTPD_HANDLERS_FULL   : esp_err_t := ESP_ERR_HTTPD_BASE + 1.
Definition ESP_ERR_HTTPD_HANDLER_EXISTS  : esp_err_t := ESP_ERR_HTTPD_BASE + 2.
Definition ESP_ERR_HTTPD_RESULT_TRUNC    : esp_err_t := ESP_ERR_HTTPD_BASE + 4.
Definition ESP_ERR_HTTPD_RESP_SEND       : esp_err_t := ESP_ERR_HTTPD_BASE + 6.

(** [err == ESP_OK] *)
Definition is_ok (e : esp_err_t) : bool := e =? ESP_OK.

(** [httpd_handle_t] is a [void *]: NULL or the address of a server. *)
Definition httpd_handle_t : Type := option positive.

Definition handle_eqb (a b : httpd_handle_t) : bool :=
  match a, b with
  | Some x, Some y => Pos.eqb x y
  | None, None => true
  | _, _ => false
  end.

(** [httpd_req_t *] of a request being served. *)
Definition httpd_req : Type := N.

(** [httpd_method_t], the [http_method] enumeration of the HTTP parser. *)
Definition httpd_method_t := Z.
Definition HTTP_DELETE : httpd_method_t := 0.
Definition HTTP_GET    : httpd_method_t := 1.
Definition HTTP_HEAD   : httpd_method_t := 2.
Definition HTTP_POST   : httpd_method_t := 3.
Definition HTTP_PUT    : httpd_method_t := 4.

(** A handler is a function pointer, [user_ctx] a [void *] that nobody
    dereferences. *)
Definition handler_fn : Type := N.

(** [httpd_uri_t]: the fields the facade fills in. *)
Record httpd_uri_t := mk_httpd_uri {
  uri      : option string;
  method   : httpd_method_t;
  handler  : option handler_fn;
  user_ctx : N
}.

(** [httpd_config_t]: the fields the facade reads or writes.  In the
    vendor's struct [server_port] and [max_uri_handlers] are [uint16_t]:
    what the facade stores there goes through [to_uint16]. *)
Record httpd_config_t := mk_httpd_config {
  server_port            : Z;
  httpd_lru_purge_enable : bool;
  httpd_max_uri_handlers : Z
}.

(** The conversion of an [int] to [uint16_t]: the value modulo 2^16. *)
Definition to_uint16 (z : Z) : Z := z mod 65536.

(** The members of [httpd_err_code_t] that the facade names. *)
Inductive httpd_err_code_t :=
| HTTPD_400_BAD_REQUEST
| HTTPD_401_UNAUTHORIZED
| HTTPD_404_NOT_FOUND
| HTTPD_413_CONTENT_TOO_LARGE
| HTTPD_500_INTERNAL_SERVER_ERROR.

End Esp.
Export Esp.

(** ** The collaborators *)

(** What [free] is given: the block behind [h->uris], told by the number of
    slots it has ([free(NULL)] when there are none), or the instance [h]
    itself. *)
Inductive heap_block :=
| BlockUris (slots : N)
| BlockInstance.

(** Every call that leaves the facade. *)
Inductive event :=
| EvCalloc (bytes : N) (granted : bool)
| EvRealloc (bytes : N) (granted : bool)
| EvFree (b : heap_block)
| EvHttpdStart (cfg : httpd_config_t) (res : esp_err_t) (out : httpd_handle_t)
| EvHttpdStop (hd : httpd_handle_t) (res : esp_err_t)
| EvRegisterUriHandler (hd : httpd_handle_t) (u : httpd_uri_t) (res : esp_err_t)
| EvUnregisterUriHandler (hd : httpd_handle_t) (u : string) (m : httpd_method_t)
                         (res : esp_err_t)
| EvUnregisterUri (hd : httpd_handle_t) (u : string) (res : esp_err_t)
| EvRespSetStatus (r : httpd_req) (status : string) (res : esp_err_t)
| EvRespSetType (r : httpd_req) (type : string) (res : esp_err_t)
| EvRespSend (r : httpd_req) (body : string) (res : esp_err_t)
| EvRespSendErr (r : httpd_req) (code : httpd_err_code_t) (msg : string)
                (res : esp_err_t)
| EvGpioSetLevel (pin : Z) (level : Z) (res : esp_err_t).

(** What the facade and the handler need from the vendor libraries, the heap
    and the build configuration.  [Env] is the state of all of them.  An
    out-parameter is returned next to the error code: [env_httpd_start] gives
    the value it stores through [handle] ([None] when it stores nothing), the
    two query functions give the contents of the destination buffer. *)
Class Platform (Env : Type) := {
  HTTPD_DEFAULT_CONFIG : httpd_config_t;
  sizeof_httpd_uri_t   : N;
  sizeof_http_hal_t    : N;
  GPIO_OUT             : Z;
  (** [ESP_IDF_VERSION >= ESP_IDF_VERSION_VAL(5, 0, 0)] *)
  IDF_VERSION_GE_5     : bool;
  (** do [calloc] and [realloc] return a non-null block of that many bytes? *)
  env_calloc : N -> Env -> bool * Env;
  env_realloc : N -> Env -> bool * Env;
  env_httpd_start : httpd_config_t -> Env -> (esp_err_t * httpd_handle_t) * Env;
  env_httpd_stop : httpd_handle_t -> Env -> esp_err_t * Env;
  env_httpd_register_uri_handler :
    httpd_handle_t -> httpd_uri_t -> Env -> esp_err_t * Env;
  env_httpd_unregister_uri_handler :
    httpd_handle_t -> string -> httpd_method_t -> Env -> esp_err_t * Env;
  env_httpd_unregister_uri :
    httpd_handle_t -> string -> Env -> esp_err_t * Env;
  env_httpd_resp_set_status : httpd_req -> string -> Env -> esp_err_t * Env;
  env_httpd_resp_set_type : httpd_req -> string -> Env -> esp_err_t * Env;
  env_httpd_resp_send : httpd_req -> string -> Env -> esp_err_t * Env;
  env_httpd_resp_send_err :
    httpd_req -> httpd_err_code_t -> string -> Env -> esp_err_t * Env;
  env_httpd_req_get_url_query_str : httpd_req -> N -> Env -> esp_err_t * string;
  env_httpd_query_key_value : string -> string -> N -> esp_err_t * string;
  env_gpio_set_level : Z -> Z -> Env -> esp_err_t * Env
}.

(** ** State and trace *)

Record world (Env : Type) := mk_world {
  w_env   : Env;
  w_trace : list event
}.
Arguments mk_world {Env} _ _.
Arguments w_env {Env} _.
Arguments w_trace {Env} _.

(** A computation that may call the collaborators. *)
Definition M (Env A : Type) : Type := world Env -> A * world Env.

Definition ret {Env A} (a : A) : M Env A := fun w => (a, w).

Definition bind {Env A B} (m : M Env A) (k : A -> M Env B) : M Env B :=
  fun w => let (a, w') := m w in k a w'.

Declare Scope hal_scope.
Delimit Scope hal_scope with hal.
Notation "x <- m ;; k" := (bind m (fun x => k))
  (at level 61, m at next level, right associativity) : hal_scope.
Notation "' p <- m ;; k" := (bind m (fun x => let p := x in k))
  (at level 61, p pattern, m at next level, right associativity) : hal_scope.
Notation "m ;; k" := (bind m (fun _ => k))
  (at level 61, right associativity) : hal_scope.
Local Open Scope hal_scope.

(** One call to a collaborator: run it on the environment and log it. *)
Definition call {Env A} (f : Env -> A * Env) (ev : A -> event) : M Env A :=
  fun w => let (a, e') := f (w_env w) in
           (a, mk_world e' (w_trace w ++ [ev a])).

Section Calls.
Context {Env : Type} `{Platform Env}.

Definition calloc (bytes : N) : M Env bool :=
  call (env_calloc bytes) (EvCalloc bytes).

Definition realloc (bytes : N) : M Env bool :=
  call (env_realloc bytes) (EvRealloc bytes).

Definition free (b : heap_block) : M Env unit :=
  fun w => (tt, mk_world (w_env w) (w_trace w ++ [EvFree b])).

Definition httpd_start (cfg : httpd_config_t)
  : M Env (esp_err_t * httpd_handle_t) :=
  call (env_httpd_start cfg) (fun r => EvHttpdStart cfg (fst r) (snd r)).

Definition httpd_stop (hd : httpd_handle_t) : M Env esp_err_t :=
  call (env_httpd_stop hd) (EvHttpdStop hd).

Definition httpd_register_uri_handler (hd : httpd_handle_t) (u : httpd_uri_t)
  : M Env esp_err_t :=
  call (env_httpd_register_uri_handler hd u) (EvRegisterUriHandler hd u).

Definition httpd_unregister_uri_handler (hd : httpd_handle_t) (u : string)
    (m : httpd_method_t) : M Env esp_err_t :=
  call (env_httpd_unregister_uri_handler hd u m)
       (EvUnregisterUriHandler hd u m).

Definition httpd_unregister_uri (hd : httpd_handle_t) (u : string)
  : M Env esp_err_t :=
  call (env_httpd_unregister_uri hd u) (EvUnregisterUri hd u).

Definition httpd_resp_set_status (r : httpd_req) (status : string)
  : M Env esp_err_t :=
  call (env_httpd_resp_set_status r status) (EvRespSetStatus r status).

Definition httpd_resp_set_type (r : httpd_req) (type : string)
  : M Env esp_err_t :=
  call (env_httpd_resp_set_type r type) (EvRespSetType r type).

Definition httpd_resp_send (r : httpd_req) (body : string)
  : M Env esp_err_t :=
  call (env_httpd_resp_send r body) (EvRespSend r body).

Definition httpd_resp_send_err (r : httpd_req) (code : httpd_err_code_t)
    (msg : string) : M Env esp_err_t :=
  call (env_httpd_resp_send_err r code msg) (EvRespSendErr r code msg).

(** The two query functions only read the request. *)
Definition httpd_req_get_url_query_str (r : httpd_req) (buf_len : N)
  : M Env (esp_err_t * string) :=
  fun w => (env_httpd_req_get_url_query_str r buf_len (w_env w), w).

Definition httpd_query_key_value (qry key : string) (val_size : N)
  : esp_err_t * string :=
  env_httpd_query_key_value qry key val_size.

Definition gpio_set_level (pin level : Z) : M Env esp_err_t :=
  call (env_gpio_set_level pin level) (EvGpioSetLevel pin level).

End Calls.

(** ** Strings the way the C code builds them *)

Module CStr.

(** The first [n] characters of [s]. *)
Fixpoint take (n : nat) (s : string) : string :=
  match n, s with
  | O, _ => EmptyString
  | _, EmptyString => EmptyString
  | S n', String c s' => String c (take n' s')
  end.

(** [snprintf(buf, size, ...)]: what ends up in [buf] when the formatted
    text is [s]; at most [size - 1] characters and the terminator. *)
Definition snprintf (size : nat) (s : string) : string := take (size - 1) s.

(** ["%d"] *)
Definition fmt_d (z : Z) : string := NilZero.string_of_int (Z.to_int z).

(** The double quote character. *)
Definition dq : string := String (ascii_of_nat 34) EmptyString.

(** [tolower] in the C locale, on an [unsigned char]. *)
Definition tolower (c : ascii) : ascii :=
  let n := nat_of_ascii c in
  if andb (Nat.leb 65 n) (Nat.leb n 90) then ascii_of_nat (n + 32) else c.

Fixpoint map_tolower (s : string) : string :=
  match s with
  | EmptyString => EmptyString
  | String c s' => String (tolower c) (map_tolower s')
  end.

(** [!strcmp(a, b)] *)
Definition streq (a b : string) : bool := String.eqb a b.

End CStr.

(** ** main/http_hal.c *)

Module HttpHal.

(** [http_hal_config_t] *)
Record http_hal_config_t := mk_config {
  port             : Z;
  lru_purge_enable : bool;
  max_uri_handlers : Z
}.

(** [http_hal_endpoint_t] *)
Record http_hal_endpoint_t := mk_endpoint {
  ep_uri      : option string;
  ep_method   : httpd_method_t;
  ep_handler  : option handler_fn;
  ep_user_ctx : N
}.

(** [struct http_hal_s] *)
Record http_hal_t := mk_hal {
  server   : httpd_handle_t;
  cfg      : http_hal_config_t;
  uris     : list httpd_uri_t;
  uris_cap : N
}.

Definition uris_len (h : http_hal_t) : N := N.of_nat (List.length (uris h)).

Definition set_server (h : http_hal_t) (s : httpd_handle_t) : http_hal_t :=
  mk_hal s (cfg h) (uris h) (uris_cap h).

Definition set_uris_cap (h : http_hal_t) (c : N) : http_hal_t :=
  mk_hal (server h) (cfg h) (uris h) c.

(** [h->uris[h->uris_len++] = u] *)
Definition push_uri (h : http_hal_t) (u : httpd_uri_t) : http_hal_t :=
  mk_hal (server h) (cfg h) (uris h ++ [u]) (uris_cap h).

(** [while (new_cap < need) new_cap *= 2;]  A positive [new_cap] reaches
    [need] within [need] doublings, which is the fuel [ensure_capacity]
    gives (see [double_until_reaches]). *)
Fixpoint double_until (fuel : nat) (new_cap need : N) : N :=
  match fuel with
  | O => new_cap
  | S fuel' =>
      if (new_cap <? need)%N then double_until fuel' (new_cap * 2)%N need
      else new_cap
  end.

Section WithPlatform.
Context {Env : Type} `{Platform Env}.

Definition ensure_capacity (h : http_hal_t) (need : N)
  : M Env (esp_err_t * http_hal_t) :=
  if (need <=? uris_cap h)%N then ret (ESP_OK, h)
  else
    let new_cap := if (uris_cap h =? 0)%N then 4%N else (uris_cap h * 2)%N in
    let new_cap := double_until (N.to_nat need) new_cap need in
    p <- realloc (new_cap * sizeof_httpd_uri_t)%N ;;
    if negb p then ret (ESP_ERR_NO_MEM, h)
    else ret (ESP_OK, set_uris_cap h new_cap).

(** [out] is only tested and written: it is modelled by whether it is
    non-null, and the instance stored through it is returned. *)
Definition http_hal_init (out_nonnull : bool)
    (c : option http_hal_config_t) : M Env (esp_err_t * option http_hal_t) :=
  match out_nonnull, c with
  | true, Some c' =>
      p <- calloc sizeof_http_hal_t ;;
      if negb p then ret (ESP_ERR_NO_MEM, None)
      else ret (ESP_OK, Some (mk_hal None c' [] 0%N))
  | _, _ => ret (ESP_ERR_INVALID_ARG, None)
  end.

Definition fill_httpd_config (i : http_hal_config_t) : httpd_config_t :=
  let out := HTTPD_DEFAULT_CONFIG in
  let out :=
    if 0 <? port i
    then mk_httpd_config (to_uint16 (port i)) (httpd_lru_purge_enable out)
                         (httpd_max_uri_handlers out)
    else out in
  let out :=
    mk_httpd_config (server_port out) (lru_purge_enable i)
                    (httpd_max_uri_handlers out) in
  if 0 <? max_uri_handlers i
  then mk_httpd_config (server_port out) (httpd_lru_purge_enable out)
                       (to_uint16 (max_uri_handlers i))
  else out.

(** The [for] loop of [http_hal_start]: every buffered descriptor goes to
    [httpd_register_uri_handler]; an error is logged and nothing else. *)
Fixpoint register_pending (srv : httpd_handle_t) (us : list httpd_uri_t)
  : M Env unit :=
  match us with
  | [] => ret tt
  | u :: us' =>
      _ <- httpd_register_uri_handler srv u ;;
      register_pending srv us'
  end.

Definition http_hal_start (hp : option http_hal_t)
  : M Env (esp_err_t * option http_hal_t) :=
  match hp with
  | None => ret (ESP_ERR_INVALID_ARG, None)
  | Some h =>
      match server h with
      | Some _ => ret (ESP_OK, Some h)
      | None =>
          let c := fill_httpd_config (cfg h) in
          r <- httpd_start c ;;
          let err := fst r in
          (* httpd_start stores through &h->server, which holds NULL *)
          let h := set_server h (snd r) in
          if negb (is_ok err) then ret (err, Some h)
          else
            register_pending (server h) (uris h) ;;
            ret (ESP_OK, Some h)
      end
  end.

Definition http_hal_stop (hp : option http_hal_t)
  : M Env (esp_err_t * option http_hal_t) :=
  match hp with
  | None => ret (ESP_ERR_INVALID_ARG, None)
  | Some h =>
      match server h with
      | None => ret (ESP_OK, Some h)
      | Some _ =>
          err <- httpd_stop (server h) ;;
          if is_ok err then ret (err, Some (set_server h None))
          else ret (err, Some h)
      end
  end.

(** After [http_hal_deinit] the instance is gone. *)
Definition http_hal_deinit (hp : option http_hal_t) : M Env unit :=
  match hp with
  | None => ret tt
  | Some h =>
      _ <- http_hal_stop (Some h) ;;
      (* http_hal_stop does not write h->uris *)
      free (BlockUris (uris_cap h)) ;;
      free BlockInstance
  end.

Definition http_hal_register_endpoint (hp : option http_hal_t)
    (ep : option http_hal_endpoint_t)
  : M Env (esp_err_t * option http_hal_t) :=
  match hp, ep with
  | Some h, Some e =>
      match ep_uri e, ep_handler e with
      | Some _, Some _ =>
          r <- ensure_capacity h (uris_len h + 1)%N ;;
          let (err, h) := r in
          if negb (is_ok err) then ret (err, Some h)
          else
            let u := mk_httpd_uri (ep_uri e) (ep_method e)
                                  (ep_handler e) (ep_user_ctx e) in
            let h := push_uri h u in
            match server h with
            | Some _ =>
                err <- httpd_register_uri_handler (server h) u ;;
                if negb (is_ok err) then ret (err, Some h)
                else ret (ESP_OK, Some h)
            | None => ret (ESP_OK, Some h)
            end
      | _, _ => ret (ESP_ERR_INVALID_ARG, hp)
      end
  | _, _ => ret (ESP_ERR_INVALID_ARG, hp)
  end.

Definition http_hal_unregister_endpoint (hp : option http_hal_t)
    (u : option string) (m : httpd_method_t)
  : M Env (esp_err_t * option http_hal_t) :=
  match hp, u with
  | Some h, Some u' =>
      match server h with
      | None => ret (ESP_ERR_INVALID_STATE, hp)
      | Some _ =>
          if IDF_VERSION_GE_5 then
            err <- httpd_unregister_uri_handler (server h) u' m ;;
            ret (err, hp)
          else
            _ <- httpd_unregister_uri (server h) u' ;;
            ret (ESP_OK, hp)
      end
  | _, _ => ret (ESP_ERR_INVALID_ARG, hp)
  end.

Definition http_hal_native_handle (hp : option http_hal_t)
  : httpd_handle_t :=
  match hp with
  | Some h => server h
  | None => None
  end.

Definition http_hal_send_json (req : option httpd_req) (status_code : Z)
    (json : option string) : M Env esp_err_t :=
  match req, json with
  | Some r, Some j =>
      let status := CStr.snprintf 32 (CStr.fmt_d status_code) in
      _ <- httpd_resp_set_status r status ;;
      _ <- httpd_resp_set_type r "application/json" ;;
      _ <- httpd_resp_send r j ;;
      ret ESP_OK
  | _, _ => ret ESP_ERR_INVALID_ARG
  end.

(** The text that ["{\"error\":\"%s\"}"] formats for [msg]. *)
Definition error_json (msg : string) : string :=
  ("{" ++ CStr.dq ++ "error" ++ CStr.dq ++ ":" ++ CStr.dq ++ msg
       ++ CStr.dq ++ "}")%string.

Definition http_hal_send_err (req : option httpd_req) (status_code : Z)
    (msg : option string) : M Env esp_err_t :=
  match req, msg with
  | Some r, Some m =>
      if status_code =? 400 then httpd_resp_send_err r HTTPD_400_BAD_REQUEST m
      else if status_code =? 401 then
        httpd_resp_send_err r HTTPD_401_UNAUTHORIZED m
      else if status_code =? 404 then
        httpd_resp_send_err r HTTPD_404_NOT_FOUND m
      else if status_code =? 413 then
        httpd_resp_send_err r HTTPD_413_CONTENT_TOO_LARGE m
      else if status_code =? 500 then
        httpd_resp_send_err r HTTPD_500_INTERNAL_SERVER_ERROR m
      else
        let buf := CStr.snprintf 96 (error_json m) in
        http_hal_send_json req status_code (Some buf)
  | _, _ => ret ESP_ERR_INVALID_ARG
  end.

End WithPlatform.

End HttpHal.
Export HttpHal.

(** ** main/main.c: the LED endpoint *)

Module Main.

Definition LED_ACTIVE_LOW : bool := false.

(** The file-scope variables the handler reads and writes:
    [bool log_request = false; int lvl, logical = 0;] *)
Record globals := mk_globals {
  log_request : bool;
  lvl         : Z;
  logical     : Z
}.

Definition globals_init : globals := mk_globals false 0 0.

(** [parse_state(s, out_level)]: the result and the value behind
    [out_level] afterwards.  [tmp] holds the first 15 characters of [s] in
    lower case. *)
Definition parse_state (s : option string) (out_level : option Z)
  : bool * option Z :=
  match s, out_level with
  | Some s', Some _ =>
      let tmp := CStr.map_tolower (CStr.take 15 s') in
      if CStr.streq tmp "1" || CStr.streq tmp "on" || CStr.streq tmp "true"
      then (true, Some 1)
      else if CStr.streq tmp "0" || CStr.streq tmp "off"
              || CStr.streq tmp "false"
      then (true, Some 0)
      else (false, out_level)
  | _, _ => (false, out_level)
  end.

Definition logical_from_gpio_level (gpio_level : Z) : Z :=
  if LED_ACTIVE_LOW then (if gpio_level =? 0 then 1 else 0)
  else (if gpio_level =? 0 then 0 else 1).

Definition gpio_level_from_logical (logical_level : Z) : Z :=
  let l := if logical_level =? 0 then 0 else 1 in
  if LED_ACTIVE_LOW then (if l =? 0 then 1 else 0) else l.

(** The text of the 200 reply. *)
Definition led_json (led_on gpio_lvl : Z) : string :=
  ("{" ++ CStr.dq ++ "ok" ++ CStr.dq ++ ":true," ++ CStr.dq ++ "led"
       ++ CStr.dq ++ ":" ++ (if Z.eqb led_on 0 then "false" else "true")
       ++ "," ++ CStr.dq ++ "gpio_level" ++ CStr.dq ++ ":"
       ++ CStr.fmt_d gpio_lvl ++ "}")%string.

Section WithPlatform.
Context {Env : Type} `{Platform Env}.

(** A block of the handler either returns from the handler ([inl] of the
    returned code) or falls through ([inr]); the variables travel along
    in both cases. *)
Definition flow : Type := (esp_err_t + unit) * globals.

(** [// 1) level=0|1] *)
Definition led_level_param (req : httpd_req) (query : string) (g : globals)
  : M Env flow :=
  let kv := httpd_query_key_value query "level" 8 in
  if is_ok (fst kv) then
    let (ok, out) := parse_state (Some (snd kv)) (Some (lvl g)) in
    let g := mk_globals (log_request g)
                        (match out with Some v => v | None => lvl g end)
                        (logical g) in
    if negb ok then
      e <- http_hal_send_err (Some req) 400
             (Some "Invalid level (use 0 or 1)"%string) ;;
      ret (inl e, g)
    else
      _ <- gpio_set_level GPIO_OUT (gpio_level_from_logical (lvl g)) ;;
      ret (inr tt, g)
  else ret (inr tt, g).

(** [// 2) state=on/off/true/false] *)
Definition led_state_param (req : httpd_req) (query : string) (g : globals)
  : M Env flow :=
  let kv := httpd_query_key_value query "state" 16 in
  if is_ok (fst kv) then
    let (ok, out) := parse_state (Some (snd kv)) (Some (logical g)) in
    let g := mk_globals (log_request g) (lvl g)
                        (match out with Some v => v | None => logical g end)
    in
    if negb ok then
      e <- http_hal_send_err (Some req) 400
             (Some "Invalid state (use on/off/true/false)"%string) ;;
      ret (inl e, g)
    else
      let g := mk_globals true (lvl g) (logical g) in
      _ <- gpio_set_level GPIO_OUT (gpio_level_from_logical (logical g)) ;;
      ret (inr tt, g)
  else ret (inr tt, g).

(** [// Reply with current state] *)
Definition led_reply (req : httpd_req) (g : globals)
  : M Env (esp_err_t * globals) :=
  let gpio_lvl := if log_request g then logical g else lvl g in
  let led_on := logical_from_gpio_level gpio_lvl in
  let resp := CStr.snprintf 80 (led_json led_on gpio_lvl) in
  e <- http_hal_send_json (Some req) 200 (Some resp) ;;
  ret (e, g).

Definition led_get_handler (req : httpd_req) (g : globals)
  : M Env (esp_err_t * globals) :=
  q <- httpd_req_get_url_query_str req 96 ;;
  if is_ok (fst q) then
    let query := snd q in
    r1 <- led_level_param req query g ;;
    match r1 with
    | (inl e, g1) => ret (e, g1)
    | (inr _, g1) =>
        r2 <- led_state_param req query g1 ;;
        match r2 with
        | (inl e, g2) => ret (e, g2)
        | (inr _, g2) => led_reply req g2
        end
    end
  else led_reply req g.

(** [app_setup_http]: the configuration and the one endpoint of the
    application; [led_handler] is the address of [led_get_handler]. *)
Definition app_cfg : http_hal_config_t := mk_config 0 true 16.

Definition led_ep (led_handler : handler_fn) : http_hal_endpoint_t :=
  mk_endpoint (Some "/api/led"%string) HTTP_GET (Some led_handler) 0%N.

End WithPlatform.

End Main.
Export Main.

(** ** Sequences of facade calls *)

Module Session.

(** A caller's use of one instance: the four operations that take it. *)
Inductive api_call :=
| CallRegister (ep : option http_hal_endpoint_t)
| CallUnregister (u : option string) (m : httpd_method_t)
| CallStart
| CallStop.

(** The [httpd_uri_t] that [http_hal_register_endpoint] builds from [*ep]. *)
Definition descriptor (e : http_hal_endpoint_t) : httpd_uri_t :=
  mk_httpd_uri (ep_uri e) (ep_method e) (ep_handler e) (ep_user_ctx e).



(** [l1] is [l2] with some elements left out. *)
Inductive subseq {A : Type} : list A -> list A -> Prop :=
| subseq_nil : subseq [] []
| subseq_keep x l1 l2 : subseq l1 l2 -> subseq (x :: l1) (x :: l2)
| subseq_skip x l1 l2 : subseq l1 l2 -> subseq l1 (x :: l2).

(** The [EvRegisterUriHandler] events of registering [us] on [srv] with
    answers [rs]. *)
Definition register_events (srv : httpd_handle_t) (us : list httpd_uri_t)
    (rs : list esp_err_t) : list event :=
  map (fun p => EvRegisterUriHandler srv (fst p) (snd p)) (combine us rs).

(** The descriptors handed to [httpd_register_uri_handler] for server
    [srv] in the trace [tr], in the order of the calls. *)
Fixpoint registrations_on (srv : httpd_handle_t) (tr : list event)
  : list httpd_uri_t :=
  match tr with
  | [] => []
  | EvRegisterUriHandler hd u _ :: tr' =>
      if handle_eqb hd srv then u :: registrations_on srv tr'
      else registrations_on srv tr'
  | _ :: tr' => registrations_on srv tr'
  end.

(** The [httpd_stop] event of a successful [http_hal_stop] on [h]. *)
Definition stop_events (h : http_hal_t) : list event :=
  match server h with
  | Some _ => [EvHttpdStop (server h) ESP_OK]
  | None => []
  end.

Section WithPlatform.
Context {Env : Type} `{Platform Env}.

Definition do_call (c : api_call) (hp : option http_hal_t)
  : M Env (esp_err_t * option http_hal_t) :=
  match c with
  | CallRegister ep => http_hal_register_endpoint hp ep
  | CallUnregister u m => http_hal_unregister_endpoint hp u m
  | CallStart => http_hal_start hp
  | CallStop => http_hal_stop hp
  end.

(** The calls of [cs] one after the other; the codes they return. *)
Fixpoint run (cs : list api_call) (hp : option http_hal_t)
  : M Env (list esp_err_t * option http_hal_t) :=
  match cs with
  | [] => ret ([], hp)
  | c :: cs' =>
      r <- do_call c hp ;;
      r' <- run cs' (snd r) ;;
      ret (fst r :: fst r', snd r')
  end.

(** What the server library answers, and the state it is left in, when
    [us] are registered on [srv] one after the other from [e]. *)
Fixpoint register_answers (srv : httpd_handle_t) (us : list httpd_uri_t)
    (e : Env) : list esp_err_t * Env :=
  match us with
  | [] => ([], e)
  | u :: us' =>
      let (r, e1) := env_httpd_register_uri_handler srv u e in
      let (rs, e2) := register_answers srv us' e1 in
      (r :: rs, e2)
  end.

End WithPlatform.

End Session.
Export Session.

(** ** A reference platform

    A small deterministic stand-in for the vendor libraries, used to run the
    facade and the handler on concrete inputs.  One server at a time; a
    server refuses a route it already has and a route beyond its handler
    limit; the heap grants a block up to a size limit; the answers of
    [httpd_start], [httpd_stop] and of the two send functions are part of the
    state, so that a failing transport or teardown can be set up. *)

Module RefPlatform.

Record ref_env := mk_ref_env {
  heap_limit   : N;                      (* largest block the heap grants *)
  start_answer : esp_err_t;              (* what httpd_start returns *)
  stop_answer  : esp_err_t;              (* what httpd_stop returns *)
  send_answer  : esp_err_t;              (* what the send functions return *)
  next_handle  : positive;
  live         : httpd_handle_t;         (* the running server *)
  live_max     : Z;                      (* its max_uri_handlers *)
  routes       : list (string * httpd_method_t);
  queries      : list (httpd_req * string)  (* URL query of each request *)
}.

Definition with_server (e : ref_env) (nh : positive) (l : httpd_handle_t)
    (mx : Z) (rt : list (string * httpd_method_t)) : ref_env :=
  mk_ref_env (heap_limit e) (start_answer e) (stop_answer e) (send_answer e)
             nh l mx rt (queries e).

Definition route_eqb (a b : string * httpd_method_t) : bool :=
  String.eqb (fst a) (fst b) && (snd a =? snd b).

Definition grant (n : N) (e : ref_env) : bool * ref_env :=
  ((n <=? heap_limit e)%N, e).

Definition ref_start (c : httpd_config_t) (e : ref_env)
  : (esp_err_t * httpd_handle_t) * ref_env :=
  if is_ok (start_answer e)
  then ((ESP_OK, Some (next_handle e)),
        with_server e (Pos.succ (next_handle e)) (Some (next_handle e))
                    (httpd_max_uri_handlers c) [])
  else ((start_answer e, None), e).

Definition ref_stop (hd : httpd_handle_t) (e : ref_env)
  : esp_err_t * ref_env :=
  if is_ok (stop_answer e)
  then (ESP_OK, with_server e (next_handle e) None 0 [])
  else (stop_answer e, e).

Definition ref_register (hd : httpd_handle_t) (u : httpd_uri_t) (e : ref_env)
  : esp_err_t * ref_env :=
  match hd, uri u, handler u with
  | Some _, Some s, Some _ =>
      if negb (handle_eqb hd (live e)) then (ESP_ERR_INVALID_ARG, e)
      else if existsb (route_eqb (s, method u)) (routes e)
      then (ESP_ERR_HTTPD_HANDLER_EXISTS, e)
      else if live_max e <=? Z.of_nat (List.length (routes e))
      then (ESP_ERR_HTTPD_HANDLERS_FULL, e)
      else (ESP_OK, with_server e (next_handle e) (live e) (live_max e)
                                (routes e ++ [(s, method u)]))
  | _, _, _ => (ESP_ERR_INVALID_ARG, e)
  end.

Definition ref_unregister (hd : httpd_handle_t) (s : string)
    (m : httpd_method_t) (e : ref_env) : esp_err_t * ref_env :=
  if negb (handle_eqb hd (live e)) then (ESP_ERR_INVALID_ARG, e)
  else if existsb (route_eqb (s, m)) (routes e)
  then (ESP_OK, with_server e (next_handle e) (live e) (live_max e)
                  (filter (fun r => negb (route_eqb (s, m) r)) (routes e)))
  else (ESP_ERR_NOT_FOUND, e).

Definition ref_unregister_uri (hd : httpd_handle_t) (s : string)
    (e : ref_env) : esp_err_t * ref_env :=
  if negb (handle_eqb hd (live e)) then (ESP_ERR_INVALID_ARG, e)
  else (ESP_OK, with_server e (next_handle e) (live e) (live_max e)
                  (filter (fun r => negb (String.eqb s (fst r))) (routes e))).

(** [s] up to the first [sep], and what follows that [sep]. *)
Fixpoint split_at (sep : ascii) (s : string) : string * option string :=
  match s with
  | EmptyString => (EmptyString, None)
  | String c s' =>
      if Ascii.eqb c sep then (EmptyString, Some s')
      else let (a, b) := split_at sep s' in (String c a, b)
  end.

(** The fields of a query string, separated by [&]. *)
Fixpoint fields (fuel : nat) (s : string) : list string :=
  match fuel with
  | O => []
  | S fuel' =>
      match split_at "&"%char s with
      | (a, None) => [a]
      | (a, Some rest) => a :: fields fuel' rest
      end
  end.

Fixpoint lookup_key (key : string) (fs : list string) : option string :=
  match fs with
  | [] => None
  | f :: fs' =>
      match split_at "="%char f with
      | (k, Some v) => if String.eqb k key then Some v else lookup_key key fs'
      | (_, None) => lookup_key key fs'
      end
  end.

(** A value is stored when it fits the buffer with its terminator. *)
Definition store (size : N) (v : string) : esp_err_t * string :=
  if (N.of_nat (String.length v) <? size)%N then (ESP_OK, v)
  else (ESP_ERR_HTTPD_RESULT_TRUNC, CStr.take (N.to_nat size - 1) v).

Definition ref_query_key_value (qry key : string) (size : N)
  : esp_err_t * string :=
  match lookup_key key (fields (S (String.length qry)) qry) with
  | Some v => store size v
  | None => (ESP_ERR_NOT_FOUND, EmptyString)
  end.

Fixpoint query_of (r : httpd_req) (qs : list (httpd_req * string))
  : option string :=
  match qs with
  | [] => None
  | (r', q) :: qs' => if (r =? r')%N then Some q else query_of r qs'
  end.

Definition ref_get_url_query_str (r : httpd_req) (len : N) (e : ref_env)
  : esp_err_t * string :=
  match query_of r (queries e) with
  | Some q => store len q
  | None => (ESP_ERR_NOT_FOUND, EmptyString)
  end.

#[export] Instance ref_platform : Platform ref_env := {|
  HTTPD_DEFAULT_CONFIG := mk_httpd_config 80 false 8;
  sizeof_httpd_uri_t := 16%N;
  sizeof_http_hal_t := 32%N;
  GPIO_OUT := 2;
  IDF_VERSION_GE_5 := true;
  env_calloc := grant;
  env_realloc := grant;
  env_httpd_start := ref_start;
  env_httpd_stop := ref_stop;
  env_httpd_register_uri_handler := ref_register;
  env_httpd_unregister_uri_handler := ref_unregister;
  env_httpd_unregister_uri := ref_unregister_uri;
  env_httpd_resp_set_status := fun _ _ e => (ESP_OK, e);
  env_httpd_resp_set_type := fun _ _ e => (ESP_OK, e);
  env_httpd_resp_send := fun _ _ e => (send_answer e, e);
  env_httpd_resp_send_err := fun _ _ _ e => (send_answer e, e);
  env_httpd_req_get_url_query_str := ref_get_url_query_str;
  env_httpd_query_key_value := ref_query_key_value;
  env_gpio_set_level := fun _ _ e => (ESP_OK, e)
|}.

(** A healthy device before [app_main]: 64 KiB blocks, no server. *)
Definition env0 : ref_env :=
  mk_ref_env 65536 ESP_OK ESP_OK ESP_OK 1%positive None 0 [] [].

Definition world0 : world ref_env := mk_world env0 [].

(** The same device serving request [r] with URL query [q]. *)
Definition serving (r : httpd_req) (q : string) : world ref_env :=
  mk_world (mk_ref_env 65536 ESP_OK ESP_OK ESP_OK 1%positive None 0 []
                       [(r, q)]) [].

(** A device whose heap grants nothing. *)
Definition world_no_heap : world ref_env :=
  mk_world (mk_ref_env 0 ESP_OK ESP_OK ESP_OK 1%positive None 0 [] []) [].

(** A device whose [httpd_stop] fails. *)
Definition world_stop_fails : world ref_env :=
  mk_world (mk_ref_env 65536 ESP_OK ESP_FAIL ESP_OK 1%positive None 0 [] [])
           [].

(** A device on which the peer has closed the connection: sending fails. *)
Definition world_send_fails : world ref_env :=
  mk_world (mk_ref_env 65536 ESP_OK ESP_OK ESP_ERR_HTTPD_RESP_SEND
                       1%positive None 0 [] []) [].

(** The instance that [http_hal_init] returns for the application's
    configuration, and some endpoints. *)
Definition fresh : http_hal_t := mk_hal None app_cfg [] 0%N.

Definition ep_led : http_hal_endpoint_t := led_ep 7%N.

Definition ep_other : http_hal_endpoint_t :=
  mk_endpoint (Some "/api/other"%string) HTTP_POST (Some 9%N) 0%N.

Definition ep_empty_uri : http_hal_endpoint_t :=
  mk_endpoint (Some EmptyString) HTTP_GET (Some 7%N) 0%N.

(** A stopped instance with three buffered descriptors, the third a
    duplicate of the first. *)
Definition backlog3 : http_hal_t :=
  mk_hal None app_cfg
         [descriptor ep_led; descriptor ep_other; descriptor ep_led] 4%N.

(** A running instance with [ep_led] registered, and its world. *)
Definition running_led : option http_hal_t * world ref_env :=
  let r := run [CallRegister (Some ep_led); CallStart] (Some fresh) world0 in
  (snd (fst r), snd r).

End RefPlatform.

(** ** main/main.c: setting the facade up *)

Module AppSetup.

Section WithPlatform.
Context {Env : Type} `{Platform Env}.

(** [app_setup_http].  [ESP_ERROR_CHECK] aborts the program on anything but
    [ESP_OK]: the result is [None] after an abort and the value of [s_http]
    otherwise.  [led_handler] is the address of [led_get_handler]. *)
Definition app_setup_http (led_handler : handler_fn)
  : M Env (option (option http_hal_t)) :=
  r <- http_hal_init true (Some app_cfg) ;;
  if negb (is_ok (fst r)) then ret None
  else
    let s_http := snd r in
    r2 <- http_hal_register_endpoint s_http (Some (led_ep led_handler)) ;;
    if negb (is_ok (fst r2)) then ret None
    else ret (Some (snd r2)).

End WithPlatform.

End AppSetup.
Export AppSetup.

(** ** Predicates on instances, variables and traces *)

Module Shape.

(** The array never holds more than it has room for, and the room is at
    most the larger of 4 slots and twice what it holds. *)
Definition buffer_ok (h : http_hal_t) : bool :=
  ((uris_len h <=? uris_cap h) &&
   (uris_cap h <=? N.max 4 (2 * uris_len h)))%N.

(** [lvl] and [logical] are 0 or 1. *)
Definition is_bit (z : Z) : bool := (z =? 0) || (z =? 1).

Definition globals_ok (g : globals) : bool :=
  is_bit (lvl g) && is_bit (logical g).

(** The handle the facade holds, followed along the calls of a trace from
    the handle [cur] it holds at first.  [None] when a call does not fit:
    [httpd_start] while a handle is held, [httpd_stop] or an unregistration
    without one, any server call on a handle other than the one held, or a
    call that the four operations of [api_call] have no reason to make. *)
Fixpoint follows_handle (cur : httpd_handle_t) (tr : list event)
  : option httpd_handle_t :=
  match tr with
  | [] => Some cur
  | EvRealloc _ _ :: tr' => follows_handle cur tr'
  | EvHttpdStart _ _ out :: tr' =>
      match cur with
      | None => follows_handle out tr'
      | Some _ => None
      end
  | EvHttpdStop hd r :: tr' =>
      match cur with
      | Some _ =>
          if handle_eqb hd cur
          then follows_handle (if is_ok r then None else cur) tr'
          else None
      | None => None
      end
  | EvRegisterUriHandler hd _ _ :: tr' =>
      if handle_eqb hd cur then follows_handle cur tr' else None
  | EvUnregisterUriHandler hd _ _ _ :: tr' =>
      match cur with
      | Some _ => if handle_eqb hd cur then follows_handle cur tr' else None
      | None => None
      end
  | EvUnregisterUri hd _ _ :: tr' =>
      match cur with
      | Some _ => if handle_eqb hd cur then follows_handle cur tr' else None
      | None => None
      end
  | _ :: _ => None
  end.

(** Where a trace names a configuration for [httpd_start], it is [c0]. *)
Definition starts_with (c0 : httpd_config_t) (tr : list event) : Prop :=
  Forall (fun e => match e with
                   | EvHttpdStart c _ _ => c = c0
                   | _ => True
                   end) tr.

(** What [parse_state] makes of a value whose lower-case text is [t]: the
    six words of its two [if]s. *)
Definition verdict (t : string) (v : Z) : bool * option Z :=
  if existsb (String.eqb t) ["1"; "on"; "true"]%string then (true, Some 1)
  else if existsb (String.eqb t) ["0"; "off"; "false"]%string
  then (true, Some 0)
  else (false, Some v).

(** The last character of a text, if it has one. *)
Fixpoint last_ascii (s : string) : option ascii :=
  match s with
  | EmptyString => None
  | String c s' =>
      match s' with
      | EmptyString => Some c
      | String _ _ => last_ascii s'
      end
  end.

(** Is the event a reply to the client? *)
Definition is_reply (e : event) : bool :=
  match e with
  | EvRespSend _ _ _ => true
  | EvRespSendErr _ _ _ _ => true
  | _ => false
  end.

(** Is the event a write of 0 or 1 to pin [pin]? *)
Definition is_bit_write (pin : Z) (e : event) : bool :=
  match e with
  | EvGpioSetLevel p l _ => (p =? pin) && is_bit l
  | _ => false
  end.

(** Does the event touch the server, the heap or a pin? *)
Definition is_side_effect (e : event) : bool :=
  match e with
  | EvRespSetStatus _ _ _ => false
  | EvRespSetType _ _ _ => false
  | EvRespSend _ _ _ => false
  | EvRespSendErr _ _ _ _ => false
  | _ => true
  end.

(** The three events of [http_hal_send_json] on request [r]. *)
Definition json_reply (r : httpd_req) (status body : string)
    (a1 a2 a3 : esp_err_t) : list event :=
  [EvRespSetStatus r status a1;
   EvRespSetType r "application/json" a2;
   EvRespSend r body a3].

End Shape.
Export Shape.

(** * Properties *)

(** ** Strings *)

Lemma take_length_le n s : (String.length (CStr.take n s) <= n)%nat.
Proof.
  revert s; induction n as [|n IH]; intros [|c s]; simpl; try lia.
  specialize (IH s); lia.
Qed.

Lemma take_all n s : (String.length s <= n)%nat -> CStr.take n s = s.
Proof.
  revert s; induction n as [|n IH]; intros [|c s]; simpl; intros Hl;
    try reflexivity; try lia.
  f_equal; apply IH; lia.
Qed.

Lemma take_prefix n s : exists t, s = (CStr.take n s ++ t)%string.
Proof.
  revert s; induction n as [|n IH]; intros s.
  - exists s. destruct s; reflexivity.
  - destruct s as [|c s]; [exists EmptyString; reflexivity|].
    destruct (IH s) as [t Ht]. exists t. simpl. f_equal. exact Ht.
Qed.

Lemma string_length_app (a b : string) :
  String.length (a ++ b) = (String.length a + String.length b)%nat.
Proof. induction a as [|c a IH]; simpl; [reflexivity | now rewrite IH]. Qed.

Lemma error_json_length m :
  String.length (error_json m) = (String.length m + 12)%nat.
Proof.
  unfold error_json. repeat rewrite string_length_app. simpl. lia.
Qed.

(** ** The growth loop *)

Lemma double_until_reaches fuel c need :
  (0 < c)%N -> (need <= c + N.of_nat fuel)%N ->
  (need <= double_until fuel c need)%N.
Proof.
  revert c; induction fuel as [|fuel IH]; intros c Hc Hn; simpl.
  - lia.
  - destruct (N.ltb_spec c need) as [Hlt|Hge]; [|exact Hge].
    apply IH; lia.
Qed.

Lemma double_until_stays fuel c need :
  (need <= c)%N -> double_until fuel c need = c.
Proof.
  intros Hn. destruct fuel as [|fuel]; simpl; [reflexivity|].
  destruct (N.ltb_spec c need); [lia | reflexivity].
Qed.

Section Facts.
Context {Env : Type} `{Platform Env}.

Lemma is_ok_eq e : is_ok e = true -> e = ESP_OK.
Proof. unfold is_ok. intros E. apply Z.eqb_eq in E. exact E. Qed.

(** [ensure_capacity] touches nothing but [uris_cap]; it answers [ESP_OK]
    with room for [need] descriptors, or [ESP_ERR_NO_MEM] with the instance
    as it was. *)
Lemma ensure_capacity_spec h need w r h' w' :
  ensure_capacity h need w = ((r, h'), w') ->
  server h' = server h /\ cfg h' = cfg h /\ uris h' = uris h /\
  ((r = ESP_OK /\ (need <= uris_cap h')%N) \/
   (r = ESP_ERR_NO_MEM /\ h' = h)).
Proof.
  unfold ensure_capacity.
  destruct (N.leb_spec need (uris_cap h)) as [Hle|Hgt].
  - unfold ret. intros E; inversion E; subst. auto 6.
  - unfold bind, realloc, call, ret.
    destruct (env_realloc _ (w_env w)) as [[|] e1]; simpl;
      intros E; inversion E; subst; simpl.
    + repeat split; left; split; [reflexivity|].
      apply double_until_reaches; [|lia].
      destruct (N.eqb_spec (uris_cap h) 0); lia.
    + auto 6.
Qed.

(** The replay loop, spelled out. *)
Lemma register_pending_spec srv us w :
  register_pending srv us w =
    (tt, mk_world (snd (register_answers srv us (w_env w)))
                  (w_trace w ++
                   register_events srv us
                     (fst (register_answers srv us (w_env w))))).
Proof.
  revert w; induction us as [|u us IH]; intros [e tr]; simpl.
  - unfold ret, register_events. simpl. now rewrite app_nil_r.
  - unfold bind, httpd_register_uri_handler, call. simpl.
    destruct (env_httpd_register_uri_handler srv u e) as [r e1].
    rewrite IH. simpl.
    destruct (register_answers srv us e1) as [rs e2]. simpl.
    unfold register_events. simpl. now rewrite <- app_assoc.
Qed.

Lemma register_answers_length srv us e :
  List.length (fst (register_answers srv us e)) = List.length us.
Proof.
  revert e; induction us as [|u us IH]; intros e; simpl; [reflexivity|].
  destruct (env_httpd_register_uri_handler srv u e) as [r e1].
  specialize (IH e1). destruct (register_answers srv us e1). simpl in *.
  now rewrite IH.
Qed.

Lemma handle_eqb_refl a : handle_eqb a a = true.
Proof. destruct a; simpl; [apply Pos.eqb_refl | reflexivity]. Qed.

(** Registering [us] shows up in the trace as [us], whatever the answers. *)
Lemma registrations_on_register_events srv us rs :
  List.length rs = List.length us ->
  registrations_on srv (register_events srv us rs) = us.
Proof.
  revert rs; induction us as [|u us IH]; intros [|r rs]; simpl;
    intros Hl; try reflexivity; try discriminate.
  rewrite handle_eqb_refl. f_equal. apply IH. now inversion Hl.
Qed.

End Facts.

(** ** Lifecycle *)

Section Lifecycle.
Context {Env : Type} `{Platform Env}.

Lemma is_ok_false_neq e : is_ok e = false -> e <> ESP_OK.
Proof. unfold is_ok. intros E. apply Z.eqb_neq in E. exact E. Qed.

(** [http_hal_start] on a running instance. *)
Lemma start_running h w :
  server h <> None -> http_hal_start (Some h) w = ((ESP_OK, Some h), w).
Proof.
  intros Hs. unfold http_hal_start. destruct (server h); [reflexivity|].
  now elim Hs.
Qed.

(** [http_hal_stop] on a stopped instance. *)
Lemma stop_stopped h w :
  server h = None -> http_hal_stop (Some h) w = ((ESP_OK, Some h), w).
Proof. intros Hs. unfold http_hal_stop. now rewrite Hs. Qed.

(** [http_hal_start] on a stopped instance, by the answer of
    [httpd_start]. *)
Lemma start_stopped h w r out e1 :
  server h = None ->
  env_httpd_start (fill_httpd_config (cfg h)) (w_env w) = ((r, out), e1) ->
  http_hal_start (Some h) w =
    if is_ok r then
      ((ESP_OK, Some (set_server h out)),
       mk_world (snd (register_answers out (uris h) e1))
         (w_trace w ++
          EvHttpdStart (fill_httpd_config (cfg h)) r out ::
          register_events out (uris h)
            (fst (register_answers out (uris h) e1))))
    else
      ((r, Some (set_server h out)),
       mk_world e1
         (w_trace w ++ [EvHttpdStart (fill_httpd_config (cfg h)) r out])).
Proof.
  intros Hs Hstart. unfold http_hal_start. rewrite Hs.
  unfold bind, httpd_start, call. rewrite Hstart. simpl.
  destruct (is_ok r); simpl; [|reflexivity].
  rewrite register_pending_spec. simpl. unfold ret.
  now rewrite <- app_assoc.
Qed.

(** [http_hal_stop] on a running instance, by the answer of [httpd_stop]. *)
Lemma stop_running h w r e1 :
  server h <> None ->
  env_httpd_stop (server h) (w_env w) = (r, e1) ->
  http_hal_stop (Some h) w =
    ((r, Some (if is_ok r then set_server h None else h)),
     mk_world e1 (w_trace w ++ [EvHttpdStop (server h) r])).
Proof.
  intros Hs Hstop. unfold http_hal_stop.
  destruct (server h) as [hd|] eqn:E; [|now elim Hs].
  unfold bind, httpd_stop, call, ret. rewrite Hstop.
  destruct (is_ok r); reflexivity.
Qed.

(** [http_hal_stop] never touches the buffer, the capacity or the
    configuration. *)
Lemma stop_frame h w r hp' w' :
  http_hal_stop (Some h) w = ((r, hp'), w') ->
  exists h', hp' = Some h' /\ uris h' = uris h /\
             uris_cap h' = uris_cap h /\ cfg h' = cfg h.
Proof.
  unfold http_hal_stop. destruct (server h) as [hd|].
  - unfold bind, httpd_stop, call, ret.
    destruct (env_httpd_stop (Some hd) (w_env w)) as [e e1].
    destruct (is_ok e); intros E; inversion E; subst; eexists; eauto.
  - unfold ret. intros E; inversion E; subst; eexists; eauto.
Qed.

(** A stop/start cycle in which both calls return [ESP_OK] hands the whole
    buffer, in order, to the server that [httpd_start] brought up. *)
Lemma cycle_replays h w hp2 w2 :
  run [CallStop; CallStart] (Some h) w = ([ESP_OK; ESP_OK], hp2, w2) ->
  exists h2 rs,
    hp2 = Some h2 /\ uris h2 = uris h /\ cfg h2 = cfg h /\
    List.length rs = List.length (uris h) /\
    w_trace w2 =
      w_trace w ++ stop_events h ++
      EvHttpdStart (fill_httpd_config (cfg h)) ESP_OK (server h2) ::
      register_events (server h2) (uris h) rs.
Proof.
  unfold run, do_call, bind, ret.
  destruct (server h) as [hd|] eqn:Hs.
  - assert (Hr : server h <> None) by (rewrite Hs; discriminate).
    destruct (env_httpd_stop (server h) (w_env w)) as [r e1] eqn:Hstop.
    rewrite (stop_running h w r e1 Hr Hstop). cbn [fst snd].
    destruct (is_ok r) eqn:Hok.
    + apply is_ok_eq in Hok. subst r.
      destruct (env_httpd_start (fill_httpd_config (cfg h)) e1)
        as [[r' out] e2] eqn:Hstart.
      rewrite (start_stopped (set_server h None)
                 (mk_world e1 (w_trace w ++ [EvHttpdStop (server h) ESP_OK]))
                 r' out e2 eq_refl Hstart).
      destruct (is_ok r') eqn:Hok'; cbn [fst snd]; intros E.
      * apply is_ok_eq in Hok'. subst r'. inversion E; subst.
        exists (set_server h out),
          (fst (register_answers out (uris h) e2)).
        simpl. repeat split; try reflexivity.
        -- apply register_answers_length.
        -- unfold stop_events. rewrite Hs. rewrite <- app_assoc.
           reflexivity.
      * apply is_ok_false_neq in Hok'. inversion E; subst. now elim Hok'.
    + rewrite (start_running h _ Hr). cbn [fst snd].
      apply is_ok_false_neq in Hok.
      intros E; inversion E; subst. now elim Hok.
  - rewrite (stop_stopped h w Hs). cbn [fst snd].
    destruct (env_httpd_start (fill_httpd_config (cfg h)) (w_env w))
      as [[r' out] e2] eqn:Hstart.
    rewrite (start_stopped h w r' out e2 Hs Hstart).
    destruct (is_ok r') eqn:Hok'; cbn [fst snd]; intros E.
    + apply is_ok_eq in Hok'. subst r'. inversion E; subst.
      exists (set_server h out),
        (fst (register_answers out (uris h) e2)).
      simpl. repeat split; try reflexivity.
      * apply register_answers_length.
      * unfold stop_events. rewrite Hs. reflexivity.
    + apply is_ok_false_neq in Hok'. inversion E; subst. now elim Hok'.
Qed.

End Lifecycle.

(** ** Registration *)

Section Registration.
Context {Env : Type} `{Platform Env}.

(** A null [uri] or a null [handler] is refused before anything happens. *)
Lemma register_invalid h e w :
  ep_uri e = None \/ ep_handler e = None ->
  http_hal_register_endpoint (Some h) (Some e) w =
    ((ESP_ERR_INVALID_ARG, Some h), w).
Proof.
  intros [E|E]; unfold http_hal_register_endpoint; rewrite E;
    [|destruct (ep_uri e)]; reflexivity.
Qed.

(** [http_hal_register_endpoint] on a descriptor with both pointers set, by
    the outcome of [ensure_capacity] and the answer of the server. *)
Lemma register_valid h e w s f r0 h0 w0 :
  ep_uri e = Some s -> ep_handler e = Some f ->
  ensure_capacity h (uris_len h + 1) w = ((r0, h0), w0) ->
  http_hal_register_endpoint (Some h) (Some e) w =
    if is_ok r0 then
      match server h with
      | None => ((ESP_OK, Some (push_uri h0 (descriptor e))), w0)
      | Some _ =>
          let (r, e1) :=
            env_httpd_register_uri_handler (server h) (descriptor e)
                                           (w_env w0) in
          ((r, Some (push_uri h0 (descriptor e))),
           mk_world e1
             (w_trace w0 ++
              [EvRegisterUriHandler (server h) (descriptor e) r]))
      end
    else ((r0, Some h0), w0).
Proof.
  intros Hu Hf Hcap.
  destruct (ensure_capacity_spec _ _ _ _ _ _ Hcap) as (Hsrv & _ & _ & _).
  unfold http_hal_register_endpoint. rewrite Hu, Hf.
  unfold bind at 1. rewrite Hcap. rewrite <- Hu, <- Hf.
  fold (descriptor e).
  destruct (is_ok r0); cbn [negb]; [|reflexivity].
  replace (server (push_uri h0 (descriptor e))) with (server h)
    by (symmetry; exact Hsrv).
  destruct (server h) as [hd|]; [|reflexivity].
  unfold bind, httpd_register_uri_handler, call, ret.
  destruct (env_httpd_register_uri_handler (Some hd) (descriptor e)
              (w_env w0)) as [r e1].
  destruct (is_ok r) eqn:Hok; cbn [negb]; [|reflexivity].
  apply is_ok_eq in Hok. now subst r.
Qed.

(** One call leaves the buffer as it is or appends the descriptor of the
    call; a register call that returns [ESP_OK] has appended. *)
Lemma do_call_buffer c h w r hp' w' :
  do_call c (Some h) w = ((r, hp'), w') ->
  exists h', hp' = Some h' /\ cfg h' = cfg h /\
    ((uris h' = uris h /\ forall ep, c = CallRegister ep -> is_ok r = false)
     \/ exists e, c = CallRegister (Some e) /\
                  uris h' = uris h ++ [descriptor e]).
Proof.
  destruct c as [[e|]|[u|] m| |]; unfold do_call.
  - destruct (ep_uri e) as [s|] eqn:Hu;
      [destruct (ep_handler e) as [f|] eqn:Hf|].
    + destruct (ensure_capacity h (uris_len h + 1) w) as [[r0 h0] w0] eqn:Hc.
      rewrite (register_valid h e w s f r0 h0 w0 Hu Hf Hc).
      destruct (ensure_capacity_spec _ _ _ _ _ _ Hc)
        as (_ & Hcfg & Hur & Hres).
      destruct (is_ok r0) eqn:Hok.
      * assert (Hpush : uris (push_uri h0 (descriptor e)) =
                        uris h ++ [descriptor e])
          by (simpl; now rewrite Hur).
        destruct (server h).
        -- destruct (env_httpd_register_uri_handler _ _ _) as [r1 e1].
           intros E; inversion E; subst.
           eexists; split; [reflexivity|]. split; [exact Hcfg|].
           right. eauto.
        -- intros E; inversion E; subst.
           eexists; split; [reflexivity|]. split; [exact Hcfg|].
           right. eauto.
      * intros E; inversion E; subst.
        eexists; split; [reflexivity|]. split; [exact Hcfg|].
        left. split; [exact Hur|]. intros _ _. exact Hok.
    + rewrite register_invalid by (now right).
      intros E; inversion E; subst. eexists; repeat split; eauto.
    + rewrite register_invalid by (now left).
      intros E; inversion E; subst. eexists; repeat split; eauto.
  - unfold http_hal_register_endpoint, ret.
    intros E; inversion E; subst. eexists; repeat split; eauto.
  - unfold http_hal_unregister_endpoint.
    destruct (server h); [destruct IDF_VERSION_GE_5|];
      unfold bind, httpd_unregister_uri_handler, httpd_unregister_uri,
             call, ret.
    + destruct (env_httpd_unregister_uri_handler _ _ _ _).
      intros E; inversion E; subst. eexists; repeat split; eauto;
        try (left; split; [reflexivity | discriminate]).
    + destruct (env_httpd_unregister_uri _ _ _).
      intros E; inversion E; subst. eexists; repeat split; eauto;
        try (left; split; [reflexivity | discriminate]).
    + intros E; inversion E; subst. eexists; repeat split; eauto;
        try (left; split; [reflexivity | discriminate]).
  - unfold http_hal_unregister_endpoint, ret.
    intros E; inversion E; subst. eexists; repeat split; eauto;
        try (left; split; [reflexivity | discriminate]).
  - unfold http_hal_start.
    destruct (server h) eqn:Hs.
    + unfold ret. intros E; inversion E; subst.
      eexists; repeat split; eauto;
        try (left; split; [reflexivity | discriminate]).
    + unfold bind, httpd_start, call.
      destruct (env_httpd_start _ _) as [[r1 out] e1]. cbn [fst snd].
      destruct (is_ok r1); cbn [negb].
      * rewrite register_pending_spec. unfold ret.
        intros E; inversion E; subst. eexists; repeat split; eauto;
        try (left; split; [reflexivity | discriminate]).
      * unfold ret. intros E; inversion E; subst.
        eexists; repeat split; eauto;
        try (left; split; [reflexivity | discriminate]).
  - intros E. destruct (stop_frame _ _ _ _ _ E) as (h' & -> & Hu & _ & Hc).
    eexists; repeat split; eauto.
    left; split; [exact Hu | discriminate].
Qed.

(** With the block behind [uris] below 2^31 bytes, what
    [http_hal_register_endpoint] asks of [ensure_capacity] stays inside
    [size_t], and [while (new_cap < need)] falls through at once. *)
Lemma ensure_capacity_within_size_t h :
  (uris_len h <= uris_cap h)%N ->
  (0 < sizeof_httpd_uri_t)%N ->
  (4 * sizeof_httpd_uri_t < 2 ^ 32)%N ->
  (uris_cap h * sizeof_httpd_uri_t < 2 ^ 31)%N ->
  let need := (uris_len h + 1)%N in
  let new_cap := if (uris_cap h =? 0)%N then 4%N else (uris_cap h * 2)%N in
  (need < 2 ^ 32)%N /\ (new_cap < 2 ^ 32)%N /\
  double_until (N.to_nat need) new_cap need = new_cap /\
  (new_cap * sizeof_httpd_uri_t < 2 ^ 32)%N.
Proof.
  intros Hfit Hsz H4 Hblock need new_cap.
  assert (Hcap : (uris_cap h <= uris_cap h * sizeof_httpd_uri_t)%N) by nia.
  assert (Hneed : (need <= new_cap)%N).
  { unfold need, new_cap. destruct (N.eqb_spec (uris_cap h) 0); lia. }
  assert (Hp : (2 ^ 32 = 2 * 2 ^ 31)%N) by reflexivity.
  split; [unfold need; lia|].
  split; [unfold new_cap; destruct (N.eqb_spec (uris_cap h) 0); lia|].
  split; [now apply double_until_stays|].
  unfold new_cap. destruct (N.eqb_spec (uris_cap h) 0); [exact H4 | nia].
Qed.

(** [h->uris[h->uris_len++] = u] writes inside the block: the length never
    passes the capacity. *)
Lemma register_in_bounds h ep w r hp' w' :
  (uris_len h <= uris_cap h)%N ->
  http_hal_register_endpoint (Some h) ep w = ((r, hp'), w') ->
  exists h', hp' = Some h' /\ (uris_len h' <= uris_cap h')%N.
Proof.
  intros Hfit. destruct ep as [e|].
  - destruct (ep_uri e) as [s|] eqn:Hu;
      [destruct (ep_handler e) as [f|] eqn:Hf|].
    + destruct (ensure_capacity h (uris_len h + 1) w) as [[r0 h0] w0] eqn:Hc.
      rewrite (register_valid h e w s f r0 h0 w0 Hu Hf Hc).
      destruct (ensure_capacity_spec _ _ _ _ _ _ Hc)
        as (_ & _ & Hur & [[-> Hroom]|[-> ->]]).
      * assert (Hlen : (uris_len (push_uri h0 (descriptor e))
                        <= uris_cap (push_uri h0 (descriptor e)))%N).
        { unfold uris_len in *. simpl. rewrite Hur, length_app. simpl.
          lia. }
        cbn [is_ok ESP_OK Z.eqb].
        destruct (server h);
          [destruct (env_httpd_register_uri_handler _ _ _)|];
          intros E; inversion E; subst; eauto.
      * cbn. intros E; inversion E; subst; eauto.
    + rewrite register_invalid by (now right).
      intros E; inversion E; subst; eauto.
    + rewrite register_invalid by (now left).
      intros E; inversion E; subst; eauto.
  - unfold http_hal_register_endpoint, ret.
    intros E; inversion E; subst; eauto.
Qed.

Lemma subseq_refl {A} (l : list A) : subseq l l.
Proof. induction l; constructor; assumption. Qed.

Lemma subseq_nil_l {A} (l : list A) : subseq [] l.
Proof. induction l; constructor; assumption. Qed.

Lemma subseq_app {A} (a b c d : list A) :
  subseq a b -> subseq c d -> subseq (a ++ c) (b ++ d).
Proof.
  intros Hab Hcd. induction Hab; simpl; [assumption | |];
    constructor; assumption.
Qed.


End Registration.

(** ** The facade: buffer and lifecycle *)

Section FacadeClaims.
Context {Env : Type} `{Platform Env}.


(** C2.  When [http_hal_start] is called on a stopped instance and
    [httpd_start] answers [ESP_OK] and stores the handle [hd], the call
    returns [ESP_OK], the instance holds [hd], the buffer is as before, and
    the calls made are [httpd_start] followed by one
    [httpd_register_uri_handler] on [hd] per buffered descriptor, in buffer
    order, whatever each of these registrations answers. *)
Theorem start_replays_backlog h w hd e1 :
  server h = None ->
  env_httpd_start (fill_httpd_config (cfg h)) (w_env w)
    = ((ESP_OK, Some hd), e1) ->
  let answers := fst (register_answers (Some hd) (uris h) e1) in
  let e2 := snd (register_answers (Some hd) (uris h) e1) in
  let tr := EvHttpdStart (fill_httpd_config (cfg h)) ESP_OK (Some hd)
            :: register_events (Some hd) (uris h) answers in
  http_hal_start (Some h) w =
    ((ESP_OK, Some (set_server h (Some hd))), mk_world e2 (w_trace w ++ tr))
  /\ http_hal_native_handle (Some (set_server h (Some hd))) = Some hd
  /\ uris (set_server h (Some hd)) = uris h
  /\ List.length answers = List.length (uris h)
  /\ registrations_on (Some hd) tr = uris h.
Proof.
  intros Hs Hstart answers e2 tr.
  rewrite (start_stopped h w ESP_OK (Some hd) e1 Hs Hstart).
  assert (Hlen : List.length answers = List.length (uris h))
    by apply register_answers_length.
  repeat split; try reflexivity; try exact Hlen.
  unfold tr. cbn [registrations_on].
  now apply registrations_on_register_events.
Qed.

(** C5.  [http_hal_start] on a running instance and [http_hal_stop] on a
    stopped one return [ESP_OK] and change nothing: no call reaches the
    server library, so nothing is registered twice.  Hence a second start
    after a start that left the instance running, and a second stop after a
    stop that returned [ESP_OK], are such calls. *)
Theorem lifecycle_idempotent h w :
  (server h <> None ->
   http_hal_start (Some h) w = ((ESP_OK, Some h), w)) /\
  (server h = None ->
   http_hal_stop (Some h) w = ((ESP_OK, Some h), w)) /\
  (forall r1 hp1 w1,
     http_hal_start (Some h) w = ((r1, hp1), w1) ->
     http_hal_native_handle hp1 <> None ->
     http_hal_start hp1 w1 = ((ESP_OK, hp1), w1)) /\
  (forall hp1 w1,
     http_hal_stop (Some h) w = ((ESP_OK, hp1), w1) ->
     http_hal_stop hp1 w1 = ((ESP_OK, hp1), w1)).
Proof.
  split; [apply start_running|]. split; [apply stop_stopped|]. split.
  - intros r1 hp1 w1 _ Hn. destruct hp1 as [h1|]; [|now elim Hn].
    now apply start_running.
  - intros hp1 w1 Hstop.
    destruct (server h) as [hd|] eqn:Hs.
    + assert (Hr : server h <> None) by (rewrite Hs; discriminate).
      destruct (env_httpd_stop (server h) (w_env w)) as [r e1] eqn:E.
      rewrite (stop_running h w r e1 Hr E) in Hstop.
      inversion Hstop; subst. cbn [is_ok Z.eqb ESP_OK].
      now apply stop_stopped.
    + rewrite (stop_stopped h w Hs) in Hstop. inversion Hstop; subst.
      now apply stop_stopped.
Qed.

(** C8, amended.  [http_hal_stop] never touches the buffer, its capacity or
    the configuration.  On a running instance it calls [httpd_stop] once
    and returns its answer; when that answer is [ESP_OK] the instance is
    stopped and [http_hal_native_handle] gives NULL, otherwise the instance
    is left running with its handle.  On a stopped instance it does
    nothing. *)
Theorem stop_teardown h w r hp' w' :
  http_hal_stop (Some h) w = ((r, hp'), w') ->
  exists h',
    hp' = Some h' /\
    uris h' = uris h /\ uris_cap h' = uris_cap h /\ cfg h' = cfg h /\
    match server h with
    | Some _ =>
        w_trace w' = w_trace w ++ [EvHttpdStop (server h) r] /\
        (r, w_env w') = env_httpd_stop (server h) (w_env w) /\
        if is_ok r then http_hal_native_handle hp' = None else h' = h
    | None => r = ESP_OK /\ h' = h /\ w' = w
    end.
Proof.
  intros Hstop.
  destruct (stop_frame _ _ _ _ _ Hstop) as (h' & -> & Hu & Hc & Hcfg).
  exists h'. repeat (split; [solve [auto]|]).
  destruct (server h) as [hd|] eqn:Hs.
  - assert (Hr : server h <> None) by (rewrite Hs; discriminate).
    destruct (env_httpd_stop (server h) (w_env w)) as [r0 e1] eqn:E.
    rewrite (stop_running h w r0 e1 Hr E) in Hstop.
    inversion Hstop; subst. cbn [w_trace w_env]. rewrite Hs in *.
    rewrite E. repeat split.
    destruct (is_ok r); reflexivity.
  - rewrite (stop_stopped h w Hs) in Hstop. now inversion Hstop.
Qed.

End FacadeClaims.

(** ** The facade: registering and unregistering *)

Section RegistryClaims.
Context {Env : Type} `{Platform Env}.

(** C3, amended.  A descriptor whose [uri] or whose [handler] is a null
    pointer is refused with [ESP_ERR_INVALID_ARG]; instance and world stay
    as they were.  A descriptor with both pointers set (an empty string is
    such a [uri]) is appended to the buffer whenever [ensure_capacity]
    finds or obtains room, whatever the lifecycle state and whatever the
    immediate registration answers; when the heap refuses the growth the
    call returns [ESP_ERR_NO_MEM] and the instance is unchanged. *)
Theorem register_endpoint_validation h e w :
  match ep_uri e, ep_handler e with
  | Some _, Some _ =>
      let '(r0, _, w0) := ensure_capacity h (uris_len h + 1) w in
      let '(r, hp', w') := http_hal_register_endpoint (Some h) (Some e) w in
      if is_ok r0
      then exists h', hp' = Some h' /\ uris h' = uris h ++ [descriptor e]
      else r = ESP_ERR_NO_MEM /\ hp' = Some h /\ w' = w0
  | _, _ =>
      http_hal_register_endpoint (Some h) (Some e) w =
        ((ESP_ERR_INVALID_ARG, Some h), w)
  end.
Proof.
  destruct (ep_uri e) as [s|] eqn:Hu;
    [destruct (ep_handler e) as [f|] eqn:Hf|].
  - destruct (ensure_capacity h (uris_len h + 1) w) as [[r0 h0] w0] eqn:Hc.
    rewrite (register_valid h e w s f r0 h0 w0 Hu Hf Hc).
    destruct (ensure_capacity_spec _ _ _ _ _ _ Hc)
      as (_ & _ & Hur & [[-> _]|[-> ->]]).
    + cbn [is_ok ESP_OK Z.eqb].
      destruct (server h).
      * destruct (env_httpd_register_uri_handler _ _ _) as [r1 e1].
        eexists; split; [reflexivity|]. simpl. now rewrite Hur.
      * eexists; split; [reflexivity|]. simpl. now rewrite Hur.
    + cbn. auto.
  - apply register_invalid. now right.
  - destruct (ep_handler e); apply register_invalid; now left.
Qed.

(** C4.  With a non-null [uri], [http_hal_unregister_endpoint] never
    changes the instance, so never the buffer.  On a stopped instance it
    returns [ESP_ERR_INVALID_STATE] and calls nothing.  On a running one its
    only call is the unregistration on the live server; and if a stop and a
    start then both return [ESP_OK], the start hands every buffered
    descriptor, the unregistered route's included, to
    [httpd_register_uri_handler] on the new server. *)
Theorem unregister_endpoint_live_only h u m w r hp1 w1 :
  http_hal_unregister_endpoint (Some h) (Some u) m w = ((r, hp1), w1) ->
  hp1 = Some h /\
  match server h with
  | None => r = ESP_ERR_INVALID_STATE /\ w1 = w
  | Some _ =>
      (exists a,
         w_trace w1 = w_trace w ++
           [if IDF_VERSION_GE_5
            then EvUnregisterUriHandler (server h) u m a
            else EvUnregisterUri (server h) u a]) /\
      forall hp2 w2,
        run [CallStop; CallStart] hp1 w1 = (([ESP_OK; ESP_OK], hp2), w2) ->
        exists h2 tr,
          hp2 = Some h2 /\ uris h2 = uris h /\
          w_trace w2 = w_trace w1 ++ tr /\
          registrations_on (server h2) tr = uris h
  end.
Proof.
  unfold http_hal_unregister_endpoint.
  destruct (server h) as [hd|] eqn:Hs.
  - assert (Hcycle : forall w1 hp2 w2,
              run [CallStop; CallStart] (Some h) w1
                = (([ESP_OK; ESP_OK], hp2), w2) ->
              exists h2 tr,
                hp2 = Some h2 /\ uris h2 = uris h /\
                w_trace w2 = w_trace w1 ++ tr /\
                registrations_on (server h2) tr = uris h).
    { intros w1' hp2 w2 Hc.
      destruct (cycle_replays _ _ _ _ Hc)
        as (h2 & answers & -> & Hur2 & _ & Hlen & Htr).
      exists h2. eexists. split; [reflexivity|]. split; [exact Hur2|].
      split; [exact Htr|].
      unfold stop_events. rewrite Hs. cbn [app registrations_on].
      now apply registrations_on_register_events. }
    destruct IDF_VERSION_GE_5;
      unfold bind, httpd_unregister_uri_handler, httpd_unregister_uri,
             call, ret.
    + destruct (env_httpd_unregister_uri_handler _ _ _ _) as [a e1].
      intros E; inversion E; subst. split; [reflexivity|]. split.
      * exists r. reflexivity.
      * apply Hcycle.
    + destruct (env_httpd_unregister_uri _ _ _) as [a e1].
      intros E; inversion E; subst. split; [reflexivity|]. split.
      * exists a. reflexivity.
      * apply Hcycle.
  - unfold ret. intros E; inversion E; subst. auto.
Qed.

(** C10.  On a running instance, with a descriptor that passes validation
    and a buffer that has or obtains room, an immediate registration that
    the server refuses with [r] makes [http_hal_register_endpoint] return
    [r]; the descriptor is in the buffer all the same, last.  If a stop and
    a start then both return [ESP_OK], the start hands the buffer, that
    descriptor included, to [httpd_register_uri_handler] on the new
    server. *)
Theorem failed_live_registration_stays_buffered h e w s f h0 w0 r e1 :
  server h <> None ->
  ep_uri e = Some s -> ep_handler e = Some f ->
  ensure_capacity h (uris_len h + 1) w = ((ESP_OK, h0), w0) ->
  env_httpd_register_uri_handler (server h) (descriptor e) (w_env w0)
    = (r, e1) ->
  r <> ESP_OK ->
  let h1 := push_uri h0 (descriptor e) in
  let w1 := mk_world e1 (w_trace w0 ++
              [EvRegisterUriHandler (server h) (descriptor e) r]) in
  http_hal_register_endpoint (Some h) (Some e) w = ((r, Some h1), w1) /\
  uris h1 = uris h ++ [descriptor e] /\
  forall hp2 w2,
    run [CallStop; CallStart] (Some h1) w1 = (([ESP_OK; ESP_OK], hp2), w2) ->
    exists h2 tr,
      hp2 = Some h2 /\
      uris h2 = uris h ++ [descriptor e] /\
      w_trace w2 = w_trace w1 ++ tr /\
      registrations_on (server h2) tr = uris h ++ [descriptor e].
Proof.
  intros Hs Hu Hf Hc Hreg Hr h1 w1.
  destruct (ensure_capacity_spec _ _ _ _ _ _ Hc) as (Hsrv & _ & Hur & _).
  assert (Hur1 : uris h1 = uris h ++ [descriptor e])
    by (unfold h1; simpl; now rewrite Hur).
  split; [|split; [exact Hur1|]].
  - rewrite (register_valid h e w s f ESP_OK h0 w0 Hu Hf Hc).
    cbn [is_ok ESP_OK Z.eqb].
    destruct (server h) as [hd|]; [|now elim Hs].
    now rewrite Hreg.
  - intros hp2 w2 Hcycle.
    destruct (cycle_replays _ _ _ _ Hcycle)
      as (h2 & answers & -> & Hur2 & _ & Hlen & Htr).
    exists h2. eexists. split; [reflexivity|].
    split; [congruence|]. split; [exact Htr|].
    unfold stop_events.
    destruct (server h1); cbn [app registrations_on];
      rewrite registrations_on_register_events by exact Hlen; exact Hur1.
Qed.

End RegistryClaims.

(** ** The response emitter *)

Section EmitterClaims.
Context {Env : Type} `{Platform Env}.

(** [http_hal_send_json] with a request and a body: three calls, whose
    answers are dropped, and [ESP_OK]. *)
Lemma send_json_spec r code j w :
  http_hal_send_json (Some r) code (Some j) w =
    let status := CStr.snprintf 32 (CStr.fmt_d code) in
    let (a1, e1) := env_httpd_resp_set_status r status (w_env w) in
    let (a2, e2) := env_httpd_resp_set_type r "application/json" e1 in
    let (a3, e3) := env_httpd_resp_send r j e2 in
    (ESP_OK,
     mk_world e3
       (w_trace w ++ [EvRespSetStatus r status a1;
                      EvRespSetType r "application/json" a2;
                      EvRespSend r j a3])).
Proof.
  unfold http_hal_send_json, bind, httpd_resp_set_status,
         httpd_resp_set_type, httpd_resp_send, call, ret.
  cbn [w_env w_trace].
  destruct (env_httpd_resp_set_status _ _ _) as [a1 e1].
  destruct (env_httpd_resp_set_type _ _ _) as [a2 e2].
  destruct (env_httpd_resp_send _ _ _) as [a3 e3].
  cbn [w_env w_trace]. now rewrite <- !app_assoc.
Qed.

(** The status text of a three-digit code is the code in decimal. *)
Lemma status_text code :
  0 <= code < 1000 ->
  CStr.snprintf 32 (CStr.fmt_d code) = CStr.fmt_d code.
Proof.
  intros Hc.
  assert (Hall : forallb
            (fun n => String.eqb
                        (CStr.snprintf 32 (CStr.fmt_d (Z.of_nat n)))
                        (CStr.fmt_d (Z.of_nat n)))
            (seq 0 1000) = true) by (vm_compute; reflexivity).
  rewrite forallb_forall in Hall.
  specialize (Hall (Z.to_nat code)).
  rewrite Z2Nat.id in Hall by lia.
  apply String.eqb_eq, Hall, in_seq. lia.
Qed.

(** The mapping of [http_hal_send_err], for every code and message.  For
    400, 401, 404, 413 and 500 it is the library's [httpd_resp_send_err]
    with the matching code and the message as given.  For every other code
    it is [http_hal_send_json] with that code and with the first 95
    characters of the text that opens with a brace, the word [error] in
    double quotes, a colon and a double quote, goes on with the message and
    closes with a double quote and a brace: the three calls are made with
    the status text of the code and [application/json], the result is
    [ESP_OK], the body is the whole text when the message has at most 83
    characters and a prefix of it of at most 95 characters otherwise.  The
    status text of a three-digit code is the code in decimal. *)
Theorem send_err_mapping r m code w :
  ~ In code [400; 401; 404; 413; 500] ->
  let text := ("{" ++ CStr.dq ++ "error" ++ CStr.dq ++ ":" ++ CStr.dq ++ m
                   ++ CStr.dq ++ "}")%string in
  let body := CStr.snprintf 96 text in
  (http_hal_send_err (Some r) 400 (Some m) w
     = httpd_resp_send_err r HTTPD_400_BAD_REQUEST m w /\
   http_hal_send_err (Some r) 401 (Some m) w
     = httpd_resp_send_err r HTTPD_401_UNAUTHORIZED m w /\
   http_hal_send_err (Some r) 404 (Some m) w
     = httpd_resp_send_err r HTTPD_404_NOT_FOUND m w /\
   http_hal_send_err (Some r) 413 (Some m) w
     = httpd_resp_send_err r HTTPD_413_CONTENT_TOO_LARGE m w /\
   http_hal_send_err (Some r) 500 (Some m) w
     = httpd_resp_send_err r HTTPD_500_INTERNAL_SERVER_ERROR m w) /\
  http_hal_send_err (Some r) code (Some m) w
    = http_hal_send_json (Some r) code (Some body) w /\
  fst (http_hal_send_err (Some r) code (Some m) w) = ESP_OK /\
  (exists a1 a2 a3,
     w_trace (snd (http_hal_send_err (Some r) code (Some m) w)) =
       w_trace w ++
       [EvRespSetStatus r (CStr.snprintf 32 (CStr.fmt_d code)) a1;
        EvRespSetType r "application/json" a2;
        EvRespSend r body a3]) /\
  (String.length body <= 95)%nat /\
  (exists rest, text = (body ++ rest)%string) /\
  ((String.length m <= 83)%nat -> body = text) /\
  (0 <= code < 1000 -> CStr.snprintf 32 (CStr.fmt_d code) = CStr.fmt_d code).
Proof.
  intros Hn text body.
  assert (Htext : text = error_json m) by reflexivity.
  assert (Hfall : http_hal_send_err (Some r) code (Some m) w
                  = http_hal_send_json (Some r) code (Some body) w).
  { unfold http_hal_send_err.
    destruct (Z.eqb_spec code 400); [elim Hn; simpl; auto|].
    destruct (Z.eqb_spec code 401); [elim Hn; simpl; auto|].
    destruct (Z.eqb_spec code 404); [elim Hn; simpl; auto|].
    destruct (Z.eqb_spec code 413); [elim Hn; simpl; auto|].
    destruct (Z.eqb_spec code 500); [elim Hn; simpl; auto 6|].
    reflexivity. }
  split; [repeat split; reflexivity|].
  split; [exact Hfall|].
  rewrite Hfall, send_json_spec. cbv zeta.
  destruct (env_httpd_resp_set_status _ _ _) as [a1 e1].
  destruct (env_httpd_resp_set_type _ _ _) as [a2 e2].
  destruct (env_httpd_resp_send _ _ _) as [a3 e3].
  cbn [fst snd w_trace].
  split; [reflexivity|]. split; [exists a1, a2, a3; reflexivity|].
  split; [apply take_length_le|]. split; [apply take_prefix|].
  split; [|apply status_text].
  intros Hl. apply take_all. rewrite Htext, error_json_length. simpl. lia.
Qed.

End EmitterClaims.

(** ** The LED endpoint *)

Section HandlerClaims.
Context {Env : Type} `{Platform Env}.


(** A value that [parse_state] accepts is stored as 0 or 1. *)
Lemma parse_state_accepts s o :
  fst (parse_state s o) = true ->
  snd (parse_state s o) = Some 1 \/ snd (parse_state s o) = Some 0.
Proof.
  unfold parse_state. destruct s as [s|], o as [v|]; try discriminate.
  destruct (_ || _ || _); [now left|].
  destruct (_ || _ || _); [now right | discriminate].
Qed.

Lemma send_err_400 req msg w :
  http_hal_send_err (Some req) 400 (Some msg) w =
    httpd_resp_send_err req HTTPD_400_BAD_REQUEST msg w.
Proof. reflexivity. Qed.


End HandlerClaims.

(** ** Runs on the reference platform *)

Import RefPlatform.

(** [http_hal_init] gives the instance the runs start from. *)
Example init_gives_fresh :
  http_hal_init true (Some app_cfg) world0 =
    ((ESP_OK, Some fresh), mk_world env0 [EvCalloc 32 true]).
Proof. reflexivity. Qed.

(** The scenario of the application: register, start, stop, start. *)
Example app_scenario :
  let r := run [CallRegister (Some ep_led); CallStart; CallStop; CallStart]
               (Some fresh) world0 in
  fst (fst r) = [ESP_OK; ESP_OK; ESP_OK; ESP_OK] /\
  registrations_on (Some 2%positive) (w_trace (snd r)) = [descriptor ep_led] /\
  routes (w_env (snd r)) = [("/api/led"%string, HTTP_GET)].
Proof. vm_compute. repeat split. Qed.


(** Witness of C2: three buffered descriptors, the third refused by the
    server as a duplicate; the start succeeds and all three were handed
    over. *)
Lemma start_replays_backlog_witness :
  fst (fst (http_hal_start (Some backlog3) world0)) = ESP_OK /\
  fst (register_answers (Some 1%positive) (uris backlog3)
         (snd (ref_start (fill_httpd_config (cfg backlog3)) env0)))
    = [ESP_OK; ESP_OK; ESP_ERR_HTTPD_HANDLER_EXISTS] /\
  registrations_on (Some 1%positive)
    (w_trace (snd (http_hal_start (Some backlog3) world0))) = uris backlog3.
Proof.
  assert (Hup : env_httpd_start (fill_httpd_config (cfg backlog3))
                  (w_env world0)
                = ((ESP_OK, Some 1%positive),
                   snd (ref_start (fill_httpd_config (cfg backlog3)) env0)))
    by (vm_compute; reflexivity).
  destruct (start_replays_backlog backlog3 world0 1%positive
              (snd (ref_start (fill_httpd_config (cfg backlog3)) env0))
              eq_refl Hup) as (Hstart & _ & _ & _ & Hreg).
  rewrite Hstart. cbn [fst snd w_trace world0 app].
  split; [reflexivity|]. split; [vm_compute; reflexivity|]. exact Hreg.
Defined.

(** Witness of C5: a second start and a second stop in a row. *)
Lemma lifecycle_idempotent_witness :
  let r1 := http_hal_start (Some backlog3) world0 in
  let s1 := http_hal_stop (Some backlog3) world0 in
  http_hal_start (snd (fst r1)) (snd r1) = ((ESP_OK, snd (fst r1)), snd r1) /\
  http_hal_stop (snd (fst s1)) (snd s1) = ((ESP_OK, snd (fst s1)), snd s1).
Proof.
  intros r1 s1.
  destruct (lifecycle_idempotent backlog3 world0) as (_ & _ & Hstart & Hstop).
  split.
  - apply (Hstart (fst (fst r1))); [vm_compute; reflexivity|].
    vm_compute. discriminate.
  - apply Hstop. vm_compute; reflexivity.
Defined.

(** Counterexample to C8 as stated: [httpd_stop] fails, [http_hal_stop]
    returns the failure and the instance still holds its server. *)
Lemma stop_failure_leaves_running :
  let r := run [CallRegister (Some ep_led); CallStart; CallStop]
               (Some fresh) world_stop_fails in
  fst (fst r) = [ESP_OK; ESP_OK; ESP_FAIL] /\
  http_hal_native_handle (snd (fst r)) = Some 1%positive.
Proof. vm_compute. split; reflexivity. Qed.

(** Witness of C8, amended: the stop of the running application. *)
Lemma stop_teardown_witness :
  let r := http_hal_stop (fst running_led) (snd running_led) in
  fst (fst r) = ESP_OK /\ http_hal_native_handle (snd (fst r)) = None /\
  exists h', snd (fst r) = Some h' /\ uris h' = [descriptor ep_led].
Proof.
  intros r.
  destruct (stop_teardown
              (mk_hal (Some 1%positive) app_cfg [descriptor ep_led] 4%N)
              (snd running_led) (fst (fst r)) (snd (fst r)) (snd r))
    as (h' & Hh & Hu & _ & _ & Hrun).
  - vm_compute; reflexivity.
  - split; [vm_compute; reflexivity|].
    destruct Hrun as (_ & _ & Hnull).
    split; [exact Hnull|]. exists h'. split; [exact Hh | exact Hu].
Defined.

(** Counterexample to C3 as stated.  A descriptor whose [uri] is the empty
    string is accepted and buffered; a descriptor with [uri] and [handler]
    both set is not buffered when the heap refuses the growth. *)
Lemma register_endpoint_not_as_stated :
  http_hal_register_endpoint (Some fresh) (Some ep_empty_uri) world0 =
    ((ESP_OK, Some (mk_hal None app_cfg [descriptor ep_empty_uri] 4%N)),
     mk_world env0 [EvRealloc 64 true]) /\
  http_hal_register_endpoint (Some fresh) (Some ep_led) world_no_heap =
    ((ESP_ERR_NO_MEM, Some fresh),
     mk_world (w_env world_no_heap) [EvRealloc 64 false]).
Proof. split; reflexivity. Qed.

(** Witness of C4: the route of [ep_led] is unregistered from the running
    application and comes back with the next stop/start cycle. *)
Lemma unregister_endpoint_live_only_witness :
  let h := mk_hal (Some 1%positive) app_cfg [descriptor ep_led] 4%N in
  let r := http_hal_unregister_endpoint (Some h) (Some "/api/led"%string)
             HTTP_GET (snd running_led) in
  let r2 := run [CallStop; CallStart] (snd (fst r)) (snd r) in
  fst running_led = Some h /\
  fst (fst r) = ESP_OK /\ routes (w_env (snd r)) = [] /\
  exists h2 tr,
    snd (fst r2) = Some h2 /\ uris h2 = uris h /\
    w_trace (snd r2) = w_trace (snd r) ++ tr /\
    registrations_on (server h2) tr = uris h.
Proof.
  intros h r r2.
  destruct (unregister_endpoint_live_only h "/api/led"%string HTTP_GET
              (snd running_led) (fst (fst r)) (snd (fst r)) (snd r))
    as (_ & _ & Hcycle).
  - vm_compute; reflexivity.
  - split; [vm_compute; reflexivity|]. split; [vm_compute; reflexivity|].
    split; [vm_compute; reflexivity|].
    apply Hcycle. vm_compute; reflexivity.
Defined.

(** Witness of C10: [ep_led] is registered a second time on the running
    application; the server refuses the duplicate, the caller gets
    [ESP_ERR_HTTPD_HANDLER_EXISTS], and the buffer holds the descriptor
    twice, both handed over at the next start. *)
Lemma failed_live_registration_stays_buffered_witness :
  let h := mk_hal (Some 1%positive) app_cfg [descriptor ep_led] 4%N in
  let w := snd running_led in
  let r := http_hal_register_endpoint (Some h) (Some ep_led) w in
  let r2 := run [CallStop; CallStart] (snd (fst r)) (snd r) in
  fst running_led = Some h /\
  fst (fst r) = ESP_ERR_HTTPD_HANDLER_EXISTS /\
  exists h2 tr,
    snd (fst r2) = Some h2 /\
    uris h2 = [descriptor ep_led; descriptor ep_led] /\
    w_trace (snd r2) = w_trace (snd r) ++ tr /\
    registrations_on (server h2) tr = [descriptor ep_led; descriptor ep_led].
Proof.
  intros h w r r2.
  assert (Hcap : ensure_capacity h (uris_len h + 1) w = ((ESP_OK, h), w))
    by (vm_compute; reflexivity).
  assert (Hreg : env_httpd_register_uri_handler (server h)
                   (descriptor ep_led) (w_env w)
                 = (ESP_ERR_HTTPD_HANDLER_EXISTS, w_env w))
    by (vm_compute; reflexivity).
  assert (Hrun : server h <> None) by discriminate.
  assert (Hbad : ESP_ERR_HTTPD_HANDLER_EXISTS <> ESP_OK) by discriminate.
  destruct (failed_live_registration_stays_buffered
              h ep_led w "/api/led"%string 7%N h w
              ESP_ERR_HTTPD_HANDLER_EXISTS (w_env w)
              Hrun eq_refl eq_refl Hcap Hreg Hbad)
    as (Hcall & _ & Hcycle).
  split; [vm_compute; reflexivity|].
  split; [unfold r; rewrite Hcall; reflexivity|].
  apply Hcycle. vm_compute; reflexivity.
Defined.

(** The example of the specification: 422 with [bad]. *)
Example send_err_422_bad :
  http_hal_send_err (Some 1%N) 422 (Some "bad"%string) world0 =
    (ESP_OK,
     mk_world env0
       [EvRespSetStatus 1%N "422" ESP_OK;
        EvRespSetType 1%N "application/json" ESP_OK;
        EvRespSend 1%N
          ("{" ++ CStr.dq ++ "error" ++ CStr.dq ++ ":" ++ CStr.dq ++ "bad"
               ++ CStr.dq ++ "}")%string ESP_OK]).
Proof. reflexivity. Qed.

(** The mapping at 422 with [bad]: not a reserved code, a short message. *)
Lemma send_err_mapping_witness :
  fst (http_hal_send_err (Some 1%N) 422 (Some "bad"%string) world0) = ESP_OK /\
  CStr.snprintf 96 (error_json "bad") = error_json "bad" /\
  CStr.snprintf 32 (CStr.fmt_d 422) = CStr.fmt_d 422.
Proof.
  destruct (send_err_mapping 1%N "bad"%string 422 world0)
    as (_ & _ & Hok & _ & _ & _ & Hshort & Hstatus).
  - simpl. intros [E|[E|[E|[E|[E|[]]]]]]; discriminate.
  - split; [exact Hok|].
    split; [apply Hshort; simpl; lia | apply Hstatus; lia].
Defined.

Lemma last_ascii_app a b :
  b <> EmptyString -> last_ascii (a ++ b) = last_ascii b.
Proof.
  intros Hb. induction a as [|c a IH]; [reflexivity|].
  cbn [append last_ascii]. rewrite IH.
  destruct (a ++ b)%string eqn:E; [|reflexivity].
  destruct a; simpl in E; [now elim Hb | discriminate].
Qed.

(** C6, the code at a failing input.  A message of 90 characters with a
    code outside the reserved five: the call returns [ESP_OK] and sends,
    as [application/json], a body of 95 characters that opens like the
    JSON text and breaks off inside the message at its 85th character.
    The closing quote and brace are not sent: the body is not the JSON
    text of any message, cut or whole. *)
Lemma send_err_long_message_breaks_json :
  let m := ("012345678901234567890123456789012345678901234"
            ++ "567890123456789012345678901234567890123456789")%string in
  let body := ("{" ++ CStr.dq ++ "error" ++ CStr.dq ++ ":" ++ CStr.dq
                   ++ "012345678901234567890123456789012345678901234"
                   ++ "5678901234567890123456789012345678901234")%string in
  String.length m = 90%nat /\
  http_hal_send_err (Some 1%N) 422 (Some m) world0 =
    (ESP_OK,
     mk_world env0
       [EvRespSetStatus 1%N "422" ESP_OK;
        EvRespSetType 1%N "application/json" ESP_OK;
        EvRespSend 1%N body ESP_OK]) /\
  String.length body = 95%nat /\
  last_ascii body = Some "4"%char /\
  forall x,
    body <> ("{" ++ CStr.dq ++ "error" ++ CStr.dq ++ ":" ++ CStr.dq ++ x
                 ++ CStr.dq ++ "}")%string.
Proof.
  intros m body.
  split; [reflexivity|]. split; [reflexivity|].
  split; [reflexivity|]. split; [reflexivity|].
  intros x E. apply (f_equal last_ascii) in E.
  change ("{" ++ CStr.dq ++ "error" ++ CStr.dq ++ ":" ++ CStr.dq ++ x
              ++ CStr.dq ++ "}")%string
    with (("{" ++ CStr.dq ++ "error" ++ CStr.dq ++ ":" ++ CStr.dq)
            ++ (x ++ (CStr.dq ++ "}")))%string in E.
  rewrite last_ascii_app in E by (destruct x; discriminate).
  rewrite last_ascii_app in E by discriminate.
  vm_compute in E. discriminate.
Qed.

(** C9, the code at a failing input.  The peer has closed the connection
    and [httpd_resp_send] answers [ESP_ERR_HTTPD_RESP_SEND]; status line,
    content type and body were passed on as given, and
    [http_hal_send_json] returns [ESP_OK], not the error. *)
Lemma send_json_drops_transport_error :
  http_hal_send_json (Some 1%N) 200 (Some "{}"%string) world_send_fails =
    (ESP_OK,
     mk_world (w_env world_send_fails)
       [EvRespSetStatus 1%N "200" ESP_OK;
        EvRespSetType 1%N "application/json" ESP_OK;
        EvRespSend 1%N "{}" ESP_ERR_HTTPD_RESP_SEND]).
Proof. reflexivity. Qed.



(** * Further properties of the facade *)

Lemma double_until_doubles fuel c need :
  exists k, double_until fuel c need = (c * 2 ^ k)%N.
Proof.
  revert c; induction fuel as [|fuel IH]; intros c; simpl.
  - exists 0%N. simpl. lia.
  - destruct (c <? need)%N.
    + destruct (IH (c * 2)%N) as [k Hk]. exists (N.succ k).
      rewrite Hk, N.pow_succ_r'. lia.
    + exists 0%N. simpl. lia.
Qed.

(** The loop stops at the first doubling that reaches [need]. *)
Lemma double_until_least fuel : forall c need,
  (0 < c)%N -> (need <= c + N.of_nat fuel)%N ->
  exists k,
    double_until fuel c need = (c * 2 ^ k)%N /\
    (forall j, (j < k)%N -> (c * 2 ^ j < need)%N) /\
    (need <= c * 2 ^ k)%N.
Proof.
  induction fuel as [|fuel IH]; intros c need Hc Hn; simpl.
  - exists 0%N. rewrite N.pow_0_r, N.mul_1_r.
    split; [reflexivity|]. split; [intros j Hj; lia | lia].
  - destruct (N.ltb_spec c need) as [Hlt|Hge].
    + destruct (IH (c * 2)%N need) as (k & Hk & Hbelow & Hreach); [lia|lia|].
      exists (N.succ k). rewrite N.pow_succ_r'.
      split; [rewrite Hk; lia|]. split; [|lia].
      intros j Hj. destruct (N.eq_dec j 0) as [->|Hj0].
      * rewrite N.pow_0_r. lia.
      * assert (Hp : (N.pred j < k)%N) by lia.
        specialize (Hbelow _ Hp).
        assert (E2 : (2 ^ j = 2 * 2 ^ N.pred j)%N).
        { rewrite <- N.pow_succ_r', N.succ_pred by exact Hj0. reflexivity. }
        rewrite E2. lia.
    + exists 0%N. rewrite N.pow_0_r, N.mul_1_r.
      split; [reflexivity|]. split; [intros j Hj; lia | lia].
Qed.

Lemma follows_handle_app cur tr1 tr2 c1 :
  follows_handle cur tr1 = Some c1 ->
  follows_handle cur (tr1 ++ tr2) = follows_handle c1 tr2.
Proof.
  revert cur; induction tr1 as [|e tr1 IH]; intros cur; simpl.
  - intros E; inversion E; reflexivity.
  - destruct e; try discriminate; try apply IH;
      destruct cur as [hd0|]; try discriminate; try apply IH;
      destruct (handle_eqb _ _); try discriminate; apply IH.
Qed.

Lemma follows_handle_register_events cur us rs :
  follows_handle cur (register_events cur us rs) = Some cur.
Proof.
  revert rs; induction us as [|u us IH]; intros [|r rs]; simpl;
    try reflexivity.
  rewrite handle_eqb_refl. apply IH.
Qed.

Lemma starts_with_register_events c0 srv us rs :
  starts_with c0 (register_events srv us rs).
Proof.
  unfold starts_with, register_events. apply Forall_forall.
  intros e He. apply in_map_iff in He. destruct He as (p & <- & _). exact I.
Qed.

Section FacadeExtras.
Context {Env : Type} `{Platform Env}.

(** [ensure_capacity], spelled out. *)
Lemma ensure_capacity_cases h need w :
  ensure_capacity h need w =
    if (need <=? uris_cap h)%N then ((ESP_OK, h), w)
    else
      let nc := double_until (N.to_nat need)
                  (if (uris_cap h =? 0)%N then 4%N else (uris_cap h * 2)%N)
                  need in
      let (p, e1) := env_realloc (nc * sizeof_httpd_uri_t)%N (w_env w) in
      ((if p then ESP_OK else ESP_ERR_NO_MEM,
        if p then set_uris_cap h nc else h),
       mk_world e1 (w_trace w ++ [EvRealloc (nc * sizeof_httpd_uri_t)%N p])).
Proof.
  unfold ensure_capacity. destruct (need <=? uris_cap h)%N; [reflexivity|].
  unfold bind, realloc, call, ret. cbv zeta.
  destruct (env_realloc _ (w_env w)) as [[|] e1]; reflexivity.
Qed.

(** X1.  Where the sizes stay inside [size_t] (twice the capacity and twice
    [need], in bytes, below 2^32), [ensure_capacity] never touches the
    descriptors, the handle or the configuration and never shrinks the
    capacity.  With room for [need] it does nothing at all.  Without, it
    asks the heap once, for the least capacity that holds [need] among 4
    slots (from none) or twice the old capacity, doubled as often as
    needed: every earlier doubling was still short of [need].  Granted, that
    is the new capacity; refused, the answer is [ESP_ERR_NO_MEM] and the
    instance is as before. *)
Theorem ensure_capacity_grows h need w r h' w' :
  (0 < sizeof_httpd_uri_t)%N ->
  (4 * sizeof_httpd_uri_t < 2 ^ 32)%N ->
  (2 * uris_cap h * sizeof_httpd_uri_t < 2 ^ 32)%N ->
  (2 * need * sizeof_httpd_uri_t < 2 ^ 32)%N ->
  ensure_capacity h need w = ((r, h'), w') ->
  (uris_cap h <= uris_cap h')%N /\
  uris h' = uris h /\ server h' = server h /\ cfg h' = cfg h /\
  ((need <= uris_cap h)%N -> r = ESP_OK /\ h' = h /\ w' = w) /\
  ((uris_cap h < need)%N ->
   exists k p,
     let c0 := (if (uris_cap h =? 0)%N then 4 else uris_cap h * 2)%N in
     let nc := (c0 * 2 ^ k)%N in
     (forall j, (j < k)%N -> (c0 * 2 ^ j < need)%N) /\
     (need <= nc)%N /\
     (nc * sizeof_httpd_uri_t < 2 ^ 32)%N /\
     w_trace w' = w_trace w ++ [EvRealloc (nc * sizeof_httpd_uri_t)%N p] /\
     (r, h') = if p then (ESP_OK, set_uris_cap h nc)
               else (ESP_ERR_NO_MEM, h)).
Proof.
  intros Hsz H4 Hcap Hneed.
  rewrite ensure_capacity_cases.
  destruct (N.leb_spec need (uris_cap h)) as [Hle|Hgt].
  - intros E; inversion E; subst.
    repeat split; try reflexivity; try lia.
  - cbv zeta.
    set (c0 := if (uris_cap h =? 0)%N then 4%N else (uris_cap h * 2)%N).
    assert (Hc0 : (0 < c0)%N)
      by (unfold c0; destruct (N.eqb_spec (uris_cap h) 0); lia).
    assert (Hc0s : (c0 * sizeof_httpd_uri_t < 2 ^ 32)%N)
      by (unfold c0; destruct (N.eqb_spec (uris_cap h) 0); lia).
    destruct (double_until_least (N.to_nat need) c0 need Hc0)
      as (k & Hk & Hbelow & Hreach); [lia|].
    assert (Hbytes : (c0 * 2 ^ k * sizeof_httpd_uri_t < 2 ^ 32)%N).
    { destruct (N.eq_dec k 0) as [->|Hk0].
      - rewrite N.pow_0_r, N.mul_1_r. exact Hc0s.
      - assert (Hp : (N.pred k < k)%N) by lia.
        specialize (Hbelow _ Hp).
        assert (E2 : (2 ^ k = 2 * 2 ^ N.pred k)%N).
        { rewrite <- N.pow_succ_r', N.succ_pred by exact Hk0. reflexivity. }
        rewrite E2. nia. }
    destruct (env_realloc _ (w_env w)) as [p e1] eqn:Hre.
    intros E; inversion E; subst. clear E.
    split; [destruct p; simpl; lia|].
    split; [destruct p; reflexivity|].
    split; [destruct p; reflexivity|].
    split; [destruct p; reflexivity|].
    split; [lia|].
    intros _. exists k, p. cbv zeta. fold c0. rewrite <- Hk.
    split; [exact Hbelow|]. split; [rewrite Hk; exact Hreach|].
    split; [rewrite Hk; exact Hbytes|]. split; [reflexivity|].
    destruct p; reflexivity.
Qed.

(** One register call keeps [buffer_ok]. *)
Lemma register_buffer_ok h ep w r hp' w' :
  buffer_ok h = true ->
  http_hal_register_endpoint (Some h) ep w = ((r, hp'), w') ->
  exists h', hp' = Some h' /\ buffer_ok h' = true.
Proof.
  intros Hok. destruct ep as [e|];
    [|unfold http_hal_register_endpoint, ret;
      intros E; inversion E; subst; eauto].
  destruct (ep_uri e) as [s|] eqn:Hu;
    [destruct (ep_handler e) as [f|] eqn:Hf|];
    try (rewrite register_invalid by (auto);
         intros E; inversion E; subst; eauto).
  destruct (ensure_capacity h (uris_len h + 1) w) as [[r0 h0] w0] eqn:Hc.
  rewrite (register_valid h e w s f r0 h0 w0 Hu Hf Hc).
  assert (Hpush : r0 = ESP_OK ->
                  buffer_ok (push_uri h0 (descriptor e)) = true).
  { intros ->. revert Hc. rewrite ensure_capacity_cases.
    unfold buffer_ok in *. apply andb_prop in Hok. destruct Hok as [H1 H2].
    apply N.leb_le in H1, H2.
    assert (Hlen : uris_len (push_uri h0 (descriptor e))
                   = (N.of_nat (List.length (uris h0)) + 1)%N).
    { unfold uris_len. simpl. rewrite length_app. simpl. lia. }
    destruct (N.leb_spec (uris_len h + 1) (uris_cap h)) as [Hle|Hgt].
    - intros E; inversion E; subst. rewrite Hlen.
      fold (uris_len h0). simpl uris_cap.
      apply andb_true_intro; split; apply N.leb_le; lia.
    - cbv zeta.
      assert (Hstay : double_until (N.to_nat (uris_len h + 1))
                        (if (uris_cap h =? 0)%N then 4%N
                         else (uris_cap h * 2)%N) (uris_len h + 1)
                      = if (uris_cap h =? 0)%N then 4%N
                        else (uris_cap h * 2)%N).
      { apply double_until_stays.
        destruct (N.eqb_spec (uris_cap h) 0); lia. }
      rewrite Hstay.
      destruct (env_realloc _ (w_env w)) as [[|] e1];
        intros E; inversion E; subst.
      rewrite Hlen. simpl uris_cap. simpl uris. fold (uris_len h).
      apply andb_true_intro; split; apply N.leb_le;
        destruct (N.eqb_spec (uris_cap h) 0); lia. }
  destruct (is_ok r0) eqn:Hr0.
  - apply is_ok_eq in Hr0. specialize (Hpush Hr0).
    destruct (server h);
      [destruct (env_httpd_register_uri_handler _ _ _)|];
      intros E; inversion E; subst; eauto.
  - destruct (ensure_capacity_spec _ _ _ _ _ _ Hc)
      as (_ & _ & _ & [[-> _]|[-> ->]]); [discriminate|].
    intros E; inversion E; subst; eauto.
Qed.

(** X2.  From an instance whose buffer is in order, whatever calls follow,
    the buffer stays in order: the length never passes the capacity, and
    the capacity never passes the larger of 4 and twice the length. *)
Theorem buffer_stays_ok cs : forall h w rs hp' w',
  buffer_ok h = true ->
  run cs (Some h) w = ((rs, hp'), w') ->
  exists h', hp' = Some h' /\ buffer_ok h' = true.
Proof.
  induction cs as [|c cs IH]; intros h w rs hp' w' Hok.
  - simpl. unfold ret. intros E; inversion E; subst. eauto.
  - cbn [run]. unfold bind at 1.
    destruct (do_call c (Some h) w) as [[r hp1] w1] eqn:Hc.
    assert (H1 : exists h1, hp1 = Some h1 /\ buffer_ok h1 = true).
    { destruct c as [ep|u m| |].
      - exact (register_buffer_ok _ _ _ _ _ _ Hok Hc).
      - destruct (do_call_buffer _ _ _ _ _ _ Hc)
          as (h1 & -> & _ & [[Hu _]|(e & Habs & _)]); [|discriminate].
        exists h1. split; [reflexivity|].
        simpl in Hc. unfold http_hal_unregister_endpoint in Hc.
        assert (h1 = h); [|subst; exact Hok].
        destruct u; [destruct (server h); [destruct IDF_VERSION_GE_5|]|];
          unfold bind, httpd_unregister_uri_handler, httpd_unregister_uri,
                 call, ret in Hc;
          repeat match type of Hc with
                 | context [let (_, _) := ?x in _] => destruct x
                 end; inversion Hc; reflexivity.
      - simpl in Hc. unfold http_hal_start in Hc.
        destruct (server h) eqn:Hs.
        + unfold ret in Hc. inversion Hc; subst. eauto.
        + unfold bind, httpd_start, call in Hc.
          destruct (env_httpd_start _ _) as [[r1 out] e1].
          cbn [fst snd] in Hc.
          destruct (is_ok r1); cbn [negb] in Hc;
            [rewrite register_pending_spec in Hc|];
            unfold ret in Hc; inversion Hc; subst;
            eexists; split; try reflexivity; exact Hok.
      - destruct (stop_frame _ _ _ _ _ Hc) as (h1 & -> & Hu & Hcap & _).
        exists h1. split; [reflexivity|].
        unfold buffer_ok, uris_len in *. now rewrite Hu, Hcap. }
    destruct H1 as (h1 & -> & Hok1).
    cbn [fst snd]. unfold bind at 1.
    destruct (run cs (Some h1) w1) as [[rs1 hp2] w2] eqn:Hr.
    destruct (IH _ _ _ _ _ Hok1 Hr) as (h2 & -> & Hok2).
    unfold ret. cbn [fst snd]. intros E; inversion E; subst. eauto.
Qed.

End FacadeExtras.

Section TraceExtras.
Context {Env : Type} `{Platform Env}.

(** What one call adds to the trace, as far as handles and configurations
    go. *)
Lemma do_call_trace c h w r hp' w' :
  do_call c (Some h) w = ((r, hp'), w') ->
  exists h' tr,
    hp' = Some h' /\ w_trace w' = w_trace w ++ tr /\
    follows_handle (server h) tr = Some (server h') /\
    starts_with (fill_httpd_config (cfg h)) tr /\
    cfg h' = cfg h.
Proof.
  assert (Hnil : forall (tr : list event), tr = tr ++ [])
    by (intros; now rewrite app_nil_r).
  destruct c as [[e|]|[u|] m| |]; unfold do_call.
  - destruct (ep_uri e) as [s|] eqn:Hu;
      [destruct (ep_handler e) as [f|] eqn:Hf|];
      try (rewrite register_invalid by auto;
           intros E; inversion E; subst;
           exists h, []; repeat split; auto; constructor).
    destruct (ensure_capacity h (uris_len h + 1) w) as [[r0 h0] w0] eqn:Hc.
    rewrite (register_valid h e w s f r0 h0 w0 Hu Hf Hc).
    destruct (ensure_capacity_spec _ _ _ _ _ _ Hc) as (Hsrv & Hcfg & _ & _).
    assert (Htr0 : exists tr0, w_trace w0 = w_trace w ++ tr0 /\
                     forall cur, follows_handle cur tr0 = Some cur /\
                     forall c0, starts_with c0 tr0).
    { revert Hc. rewrite ensure_capacity_cases.
      destruct (uris_len h + 1 <=? uris_cap h)%N.
      - intros E; inversion E; subst. exists []. split; [apply Hnil|].
        intros cur. split; [reflexivity|]. intros c0. constructor.
      - cbv zeta. destruct (env_realloc _ (w_env w)) as [p e1].
        intros E; inversion E; subst. eexists. split; [reflexivity|].
        intros cur. split; [reflexivity|]. intros c0.
        repeat (constructor; try exact I). }
    destruct Htr0 as (tr0 & Ht0 & Hf0).
    destruct (is_ok r0).
    + destruct (server h) as [hd|] eqn:Hs.
      * destruct (env_httpd_register_uri_handler _ _ _) as [r1 e1].
        intros E; inversion E; subst.
        exists (push_uri h0 (descriptor e)),
          (tr0 ++ [EvRegisterUriHandler (Some hd) (descriptor e) r]).
        split; [reflexivity|].
        split; [cbn [w_trace]; rewrite Ht0, <- app_assoc; reflexivity|].
        split.
        -- rewrite (follows_handle_app _ _ _ _ (proj1 (Hf0 (Some hd)))).
           simpl. rewrite Pos.eqb_refl. simpl in *. now rewrite Hsrv.
        -- split; [|exact Hcfg].
           apply Forall_app. split; [apply (Hf0 None) | repeat (constructor; try exact I)].
      * intros E; inversion E; subst.
        exists (push_uri h0 (descriptor e)), tr0.
        split; [reflexivity|]. split; [exact Ht0|].
        split; [rewrite (proj1 (Hf0 None)); simpl; now rewrite Hsrv|].
        split; [apply (Hf0 None) | exact Hcfg].
    + intros E; inversion E; subst. exists h0, tr0.
      split; [reflexivity|]. split; [exact Ht0|].
      split; [rewrite (proj1 (Hf0 (server h))); now rewrite Hsrv|].
      split; [apply (Hf0 None) | exact Hcfg].
  - unfold http_hal_register_endpoint, ret. intros E; inversion E; subst.
    exists h, []. repeat split; auto; constructor.
  - unfold http_hal_unregister_endpoint.
    destruct (server h) as [hd|] eqn:Hs; [destruct IDF_VERSION_GE_5|];
      unfold bind, httpd_unregister_uri_handler, httpd_unregister_uri,
             call, ret.
    + destruct (env_httpd_unregister_uri_handler _ _ _ _) as [a e1].
      intros E; inversion E; subst. exists h. eexists.
      split; [reflexivity|]. split; [reflexivity|].
      split; [simpl; rewrite Pos.eqb_refl; now rewrite Hs|].
      split; [repeat (constructor; try exact I) | reflexivity].
    + destruct (env_httpd_unregister_uri _ _ _) as [a e1].
      intros E; inversion E; subst. exists h. eexists.
      split; [reflexivity|]. split; [reflexivity|].
      split; [simpl; rewrite Pos.eqb_refl; now rewrite Hs|].
      split; [repeat (constructor; try exact I) | reflexivity].
    + intros E; inversion E; subst. exists h, [].
      rewrite Hs. repeat split; auto; constructor.
  - unfold http_hal_unregister_endpoint, ret. intros E; inversion E; subst.
    exists h, []. repeat split; auto; constructor.
  - destruct (server h) as [hd|] eqn:Hs.
    + rewrite start_running by (rewrite Hs; discriminate).
      intros E; inversion E; subst. exists h, [].
      rewrite Hs. repeat split; auto; constructor.
    + destruct (env_httpd_start (fill_httpd_config (cfg h)) (w_env w))
        as [[r1 out] e1] eqn:Hst.
      rewrite (start_stopped h w r1 out e1 Hs Hst).
      destruct (is_ok r1); intros E; inversion E; subst;
        exists (set_server h out); eexists;
        (split; [reflexivity|]); (split; [reflexivity|]).
      * split; [simpl; apply follows_handle_register_events|].
        split; [|reflexivity].
        constructor; [reflexivity | apply starts_with_register_events].
      * split; [reflexivity|]. split; [|reflexivity].
        repeat (constructor; try exact I).
  - destruct (server h) as [hd|] eqn:Hs.
    + destruct (env_httpd_stop (server h) (w_env w)) as [r1 e1] eqn:Hst.
      assert (Hrun : server h <> None) by (rewrite Hs; discriminate).
      rewrite (stop_running h w r1 e1 Hrun Hst).
      intros E; inversion E; subst. eexists. eexists.
      split; [reflexivity|]. split; [reflexivity|].
      split.
      * rewrite Hs. simpl. rewrite Pos.eqb_refl.
        destruct (is_ok r); simpl; [reflexivity | now rewrite Hs].
      * split; [repeat (constructor; try exact I)|].
        destruct (is_ok r); reflexivity.
    + rewrite stop_stopped by exact Hs.
      intros E; inversion E; subst. exists h, [].
      rewrite Hs. repeat split; auto; constructor.
Qed.

Lemma run_trace cs : forall h w rs hp' w',
  run cs (Some h) w = ((rs, hp'), w') ->
  exists h' tr,
    hp' = Some h' /\ w_trace w' = w_trace w ++ tr /\
    follows_handle (server h) tr = Some (server h') /\
    starts_with (fill_httpd_config (cfg h)) tr /\
    cfg h' = cfg h.
Proof.
  induction cs as [|c cs IH]; intros h w rs hp' w'.
  - simpl. unfold ret. intros E; inversion E; subst.
    exists h, []. rewrite app_nil_r. repeat split; constructor.
  - cbn [run]. unfold bind at 1.
    destruct (do_call c (Some h) w) as [[r hp1] w1] eqn:Hc.
    destruct (do_call_trace _ _ _ _ _ _ Hc)
      as (h1 & tr1 & -> & Ht1 & Hf1 & Hs1 & Hc1).
    cbn [fst snd]. unfold bind at 1.
    destruct (run cs (Some h1) w1) as [[rs1 hp2] w2] eqn:Hr.
    destruct (IH _ _ _ _ _ Hr) as (h2 & tr2 & -> & Ht2 & Hf2 & Hs2 & Hc2).
    unfold ret. cbn [fst snd]. intros E; inversion E; subst.
    exists h2, (tr1 ++ tr2). split; [reflexivity|].
    split; [rewrite Ht2, Ht1, app_assoc; reflexivity|].
    split; [rewrite (follows_handle_app _ _ _ _ Hf1); exact Hf2|].
    split; [|congruence].
    apply Forall_app. split; [exact Hs1|]. rewrite <- Hc1. exact Hs2.
Qed.

(** X3.  Over any sequence of calls the facade contacts the server library
    only with the handle it holds at that moment: it calls [httpd_start]
    only while it holds none, [httpd_stop] and the unregistrations only on
    the handle it holds, registrations only on the handle it holds, and it
    lets go of a handle only after [httpd_stop] answered [ESP_OK].  The
    handle followed along the trace is the one the instance ends with. *)
Theorem facade_handle_discipline cs h w rs hp' w' :
  run cs (Some h) w = ((rs, hp'), w') ->
  exists h' tr,
    hp' = Some h' /\ w_trace w' = w_trace w ++ tr /\
    follows_handle (server h) tr = Some (http_hal_native_handle hp').
Proof.
  intros Hr.
  destruct (run_trace _ _ _ _ _ _ Hr) as (h' & tr & -> & Ht & Hf & _ & _).
  exists h', tr. auto.
Qed.

(** X4.  The configuration taken at [http_hal_init] is never changed by
    any call, and every [httpd_start] of any sequence of calls is made with
    the server configuration derived from it: the default one, with the
    port replaced when [port] is positive, by [port] as the [uint16_t]
    field holds it, that is modulo 2^16; with the LRU flag as given; and
    with the handler limit replaced likewise when [max_uri_handlers] is
    positive.  A positive value below 2^16 arrives as it is. *)
Theorem config_snapshot_is_used cs h w rs hp' w' :
  run cs (Some h) w = ((rs, hp'), w') ->
  exists h' tr,
    hp' = Some h' /\ cfg h' = cfg h /\
    w_trace w' = w_trace w ++ tr /\
    (forall c a out, In (EvHttpdStart c a out) tr ->
       server_port c = (if 0 <? port (cfg h) then port (cfg h) mod 65536
                        else server_port HTTPD_DEFAULT_CONFIG) /\
       httpd_lru_purge_enable c = lru_purge_enable (cfg h) /\
       httpd_max_uri_handlers c =
         (if 0 <? max_uri_handlers (cfg h)
          then max_uri_handlers (cfg h) mod 65536
          else httpd_max_uri_handlers HTTPD_DEFAULT_CONFIG) /\
       (0 < port (cfg h) < 65536 -> server_port c = port (cfg h)) /\
       (0 < max_uri_handlers (cfg h) < 65536 ->
        httpd_max_uri_handlers c = max_uri_handlers (cfg h))).
Proof.
  intros Hr.
  destruct (run_trace _ _ _ _ _ _ Hr) as (h' & tr & -> & Ht & _ & Hs & Hc).
  exists h', tr. split; [reflexivity|]. split; [exact Hc|].
  split; [exact Ht|].
  intros c a out Hin. unfold starts_with in Hs.
  rewrite Forall_forall in Hs. specialize (Hs _ Hin). simpl in Hs. subst c.
  unfold fill_httpd_config, to_uint16.
  destruct (Z.ltb_spec 0 (port (cfg h)));
    destruct (Z.ltb_spec 0 (max_uri_handlers (cfg h)));
    cbn [server_port httpd_lru_purge_enable httpd_max_uri_handlers];
    repeat split; try reflexivity; intros Hrange;
    try (rewrite Z.mod_small by lia; reflexivity); lia.
Qed.

End TraceExtras.

Lemma take_exact n s :
  (n <= String.length s)%nat -> String.length (CStr.take n s) = n.
Proof.
  revert s; induction n as [|n IH]; intros [|c s]; simpl; intros Hl;
    try reflexivity; try lia.
  f_equal. apply IH. lia.
Qed.

Lemma take_app_long n a b :
  (n <= String.length a)%nat -> CStr.take n (a ++ b) = CStr.take n a.
Proof.
  revert a; induction n as [|n IH]; intros a Hl.
  - reflexivity.
  - destruct a as [|c a]; simpl in *; [lia|].
    f_equal. apply IH. lia.
Qed.

Lemma take_past_prefix p n x :
  CStr.take (String.length p + n) (p ++ x) = (p ++ CStr.take n x)%string.
Proof.
  induction p as [|c p IH]; simpl; [reflexivity | now rewrite IH].
Qed.

Section LifecycleExtras.
Context {Env : Type} `{Platform Env}.

(** X5.  [http_hal_init] returns an instance exactly when it returns
    [ESP_OK]; the instance is stopped, holds the given configuration and an
    empty buffer without storage.  With a null [out] or [cfg] the answer is
    [ESP_ERR_INVALID_ARG] and the heap is not asked; otherwise the heap is
    asked once, and a refusal gives [ESP_ERR_NO_MEM]. *)
Theorem init_outcomes o c w r hp w' :
  http_hal_init o c w = ((r, hp), w') ->
  (r = ESP_OK <-> hp <> None) /\
  (forall h, hp = Some h ->
     http_hal_native_handle hp = None /\ uris h = [] /\
     uris_cap h = 0%N /\ c = Some (cfg h) /\ buffer_ok h = true) /\
  (o = false \/ c = None -> r = ESP_ERR_INVALID_ARG /\ w' = w) /\
  (o = true -> c <> None ->
   exists p, w_trace w' = w_trace w ++ [EvCalloc sizeof_http_hal_t p] /\
             r = if p then ESP_OK else ESP_ERR_NO_MEM).
Proof.
  unfold http_hal_init.
  destruct o, c as [c'|]; unfold bind, calloc, call, ret;
    try (intros E; inversion E; subst;
         repeat split; try discriminate; try tauto;
         try (intros [?|?]; discriminate); intros; congruence).
  destruct (env_calloc _ (w_env w)) as [[|] e1]; simpl;
    intros E; inversion E; subst.
  - split; [split; [discriminate | reflexivity]|].
    split; [intros h Eh; inversion Eh; subst; repeat split|].
    split; [intros [?|?]; discriminate|].
    intros _ _. exists true. split; reflexivity.
  - split; [split; [discriminate | intros Hn; now elim Hn]|].
    split; [discriminate|].
    split; [intros [?|?]; discriminate|].
    intros _ _. exists false. split; reflexivity.
Qed.

(** X6.  When [httpd_start] fails, [http_hal_start] returns its error, has
    made no other call (nothing is registered) and leaves the buffer as it
    was; if [httpd_start] stored no handle, the instance is exactly as
    before, so a later start tries again. *)
Theorem start_failure_keeps_backlog h w r out e1 :
  server h = None ->
  env_httpd_start (fill_httpd_config (cfg h)) (w_env w) = ((r, out), e1) ->
  r <> ESP_OK ->
  http_hal_start (Some h) w =
    ((r, Some (set_server h out)),
     mk_world e1
       (w_trace w ++ [EvHttpdStart (fill_httpd_config (cfg h)) r out])) /\
  uris (set_server h out) = uris h /\
  (out = None -> set_server h out = h).
Proof.
  intros Hs Hst Hr.
  rewrite (start_stopped h w r out e1 Hs Hst).
  destruct (is_ok r) eqn:Hok; [apply is_ok_eq in Hok; now elim Hr|].
  split; [reflexivity|]. split; [reflexivity|].
  intros ->. destruct h; simpl in *. now subst.
Qed.

(** X7.  On a null instance every operation answers
    [ESP_ERR_INVALID_ARG], whatever else it is given, and no sequence of
    calls reaches the server library or the heap. *)
Theorem null_instance_inert cs w :
  run cs None w = ((map (fun _ => ESP_ERR_INVALID_ARG) cs, None), w).
Proof.
  revert w; induction cs as [|c cs IH]; intros w; [reflexivity|].
  cbn [run map]. unfold bind at 1.
  assert (Hc : do_call c None w = ((ESP_ERR_INVALID_ARG, None), w))
    by (destruct c as [ep|u m| |]; reflexivity).
  rewrite Hc. cbn [fst snd]. unfold bind at 1. rewrite IH. reflexivity.
Qed.

(** X8.  [http_hal_deinit] on an instance calls [httpd_stop] once if the
    instance is running and then frees two blocks, each once: first the
    block behind [uris], then the instance, so [h->uris] is read before [h]
    is gone.  It frees them also when [httpd_stop] failed, that is while
    the server still runs.  On a null instance it does nothing. *)
Theorem deinit_releases h w :
  http_hal_deinit None w = (tt, w) /\
  exists a e',
    (a, e') = match server h with
              | Some _ => env_httpd_stop (server h) (w_env w)
              | None => (ESP_OK, w_env w)
              end /\
    http_hal_deinit (Some h) w =
      (tt, mk_world e'
             (w_trace w ++
              match server h with
              | Some _ => [EvHttpdStop (server h) a]
              | None => []
              end ++ [EvFree (BlockUris (uris_cap h));
                      EvFree BlockInstance])).
Proof.
  split; [reflexivity|].
  unfold http_hal_deinit. unfold bind at 1.
  destruct (server h) as [hd|] eqn:Hs.
  - assert (Hrun : server h <> None) by (rewrite Hs; discriminate).
    destruct (env_httpd_stop (server h) (w_env w)) as [a e1] eqn:Hst.
    rewrite (stop_running h w a e1 Hrun Hst). rewrite Hs in Hst.
    exists a, e1. split; [now rewrite Hst|].
    unfold bind, free. simpl. rewrite Hs. now rewrite <- !app_assoc.
  - rewrite (stop_stopped h w Hs). exists ESP_OK, (w_env w).
    split; [reflexivity|]. unfold bind, free. simpl.
    now rewrite <- !app_assoc.
Qed.

(** X9.  Registering and unregistering never change the lifecycle state:
    after either call, also a failed one, the instance holds the handle and
    the configuration it held before; unregistering leaves the whole
    instance as it was. *)
Theorem registry_keeps_lifecycle h w :
  (forall ep r hp' w',
     http_hal_register_endpoint (Some h) ep w = ((r, hp'), w') ->
     exists h', hp' = Some h' /\
       http_hal_native_handle hp' = http_hal_native_handle (Some h) /\
       cfg h' = cfg h) /\
  (forall u m r hp' w',
     http_hal_unregister_endpoint (Some h) u m w = ((r, hp'), w') ->
     hp' = Some h).
Proof.
  split.
  - intros [e|] r hp' w';
      [|unfold http_hal_register_endpoint, ret;
        intros E; inversion E; subst; eauto].
    destruct (ep_uri e) as [s|] eqn:Hu;
      [destruct (ep_handler e) as [f|] eqn:Hf|];
      try (rewrite register_invalid by auto;
           intros E; inversion E; subst; eauto).
    destruct (ensure_capacity h (uris_len h + 1) w) as [[r0 h0] w0] eqn:Hc.
    rewrite (register_valid h e w s f r0 h0 w0 Hu Hf Hc).
    destruct (ensure_capacity_spec _ _ _ _ _ _ Hc) as (Hsrv & Hcfg & _ & _).
    destruct (is_ok r0);
      [destruct (server h) eqn:Hs;
       [destruct (env_httpd_register_uri_handler _ _ _)|]|];
      intros E; inversion E; subst; eexists;
      (split; [reflexivity|]); split; simpl; congruence.
  - intros u m r hp' w'. unfold http_hal_unregister_endpoint.
    destruct u; [destruct (server h); [destruct IDF_VERSION_GE_5|]|];
      unfold bind, httpd_unregister_uri_handler, httpd_unregister_uri,
             call, ret;
      repeat match goal with
             | |- context [let (_, _) := ?x in _] => destruct x
             end; intros E; inversion E; reflexivity.
Qed.

End LifecycleExtras.

Section RegistryExtras.
Context {Env : Type} `{Platform Env}.

(** X10.  While the instance is stopped, [http_hal_register_endpoint]
    never contacts the server library: at most it asks the heap once.  It
    returns [ESP_OK] with the descriptor appended, or
    [ESP_ERR_INVALID_ARG] or [ESP_ERR_NO_MEM] with the buffer as it was, and
    the instance stays stopped. *)
Theorem register_while_stopped_is_local h e w r hp' w' :
  server h = None ->
  http_hal_register_endpoint (Some h) (Some e) w = ((r, hp'), w') ->
  exists h' tr,
    hp' = Some h' /\ server h' = None /\
    w_trace w' = w_trace w ++ tr /\
    (tr = [] \/ exists b p, tr = [EvRealloc b p]) /\
    ((r = ESP_OK /\ uris h' = uris h ++ [descriptor e]) \/
     ((r = ESP_ERR_INVALID_ARG \/ r = ESP_ERR_NO_MEM) /\ uris h' = uris h)).
Proof.
  intros Hs.
  destruct (ep_uri e) as [s|] eqn:Hu;
    [destruct (ep_handler e) as [f|] eqn:Hf|].
  - destruct (ensure_capacity h (uris_len h + 1) w) as [[r0 h0] w0] eqn:Hc.
    rewrite (register_valid h e w s f r0 h0 w0 Hu Hf Hc). rewrite Hs.
    destruct (ensure_capacity_spec _ _ _ _ _ _ Hc)
      as (Hsrv & _ & Hur & Hres).
    assert (Htr : exists tr, w_trace w0 = w_trace w ++ tr /\
                    (tr = [] \/ exists b p, tr = [EvRealloc b p])).
    { revert Hc. rewrite ensure_capacity_cases.
      destruct (uris_len h + 1 <=? uris_cap h)%N.
      - intros E; inversion E; subst. exists [].
        rewrite app_nil_r. auto.
      - cbv zeta. destruct (env_realloc _ (w_env w)) as [p e1].
        intros E; inversion E; subst. eexists. split; [reflexivity|].
        right. eauto. }
    destruct Htr as (tr & Ht & Hshape).
    destruct Hres as [[-> _]|[-> ->]]; cbn [is_ok ESP_OK Z.eqb];
      intros E; inversion E; subst; eexists; exists tr.
    + split; [reflexivity|]. split; [simpl; congruence|].
      split; [exact Ht|]. split; [exact Hshape|].
      left. split; [reflexivity|]. simpl. now rewrite Hur.
    + split; [reflexivity|]. split; [exact Hs|].
      split; [exact Ht|]. split; [exact Hshape|]. right. auto.
  - rewrite register_invalid by auto.
    intros E; inversion E; subst. exists h, [].
    rewrite app_nil_r. repeat split; auto.
  - rewrite register_invalid by auto.
    intros E; inversion E; subst. exists h, [].
    rewrite app_nil_r. repeat split; auto.
Qed.

(** X11.  Without a request, or without a body or message, the two send
    functions answer [ESP_ERR_INVALID_ARG] and send nothing, whatever the
    status code, the reserved ones included. *)
Theorem emitter_rejects_null req code s w :
  req = None \/ s = None ->
  http_hal_send_json req code s w = (ESP_ERR_INVALID_ARG, w) /\
  http_hal_send_err req code s w = (ESP_ERR_INVALID_ARG, w).
Proof.
  intros [-> | ->]; unfold http_hal_send_json, http_hal_send_err;
    [|destruct req]; split; reflexivity.
Qed.

(** X12.  On the fallback path a message of 85 characters or more leaves
    no room for the end of the JSON text: the body sent is the ten
    opening characters of the text followed by the first 85 characters of
    the message, 95 characters without the closing quote and brace. *)
Theorem send_err_long_message_is_cut r m code w :
  ~ In code [400; 401; 404; 413; 500] ->
  (85 <= String.length m)%nat ->
  let body := ("{" ++ CStr.dq ++ "error" ++ CStr.dq ++ ":" ++ CStr.dq
                   ++ CStr.take 85 m)%string in
  http_hal_send_err (Some r) code (Some m) w
    = http_hal_send_json (Some r) code (Some body) w /\
  String.length body = 95%nat.
Proof.
  intros Hn Hl body.
  set (p := ("{" ++ CStr.dq ++ "error" ++ CStr.dq ++ ":" ++ CStr.dq)%string).
  assert (Hbody : CStr.snprintf 96 (error_json m) = body).
  { unfold CStr.snprintf.
    change (96 - 1)%nat with (String.length p + 85)%nat.
    change (error_json m) with (p ++ (m ++ (CStr.dq ++ "}")))%string.
    rewrite take_past_prefix, take_app_long by exact Hl. reflexivity. }
  split.
  - rewrite <- Hbody. unfold http_hal_send_err.
    destruct (Z.eqb_spec code 400); [elim Hn; simpl; auto|].
    destruct (Z.eqb_spec code 401); [elim Hn; simpl; auto|].
    destruct (Z.eqb_spec code 404); [elim Hn; simpl; auto|].
    destruct (Z.eqb_spec code 413); [elim Hn; simpl; auto|].
    destruct (Z.eqb_spec code 500); [elim Hn; simpl; auto 6|].
    reflexivity.
  - change body with (p ++ CStr.take 85 m)%string.
    rewrite string_length_app, take_exact by exact Hl. reflexivity.
Qed.

(** X13.  [app_setup_http] asks the heap twice, for the instance and for
    four descriptor slots.  If both are granted, [s_http] is a stopped
    instance with the application's configuration and exactly one pending
    endpoint, GET [/api/led] with the LED handler and a null context;
    otherwise the program aborts at the first refusal.  Started later, with
    [httpd_start] coming up, that instance asks for the default port, LRU
    purge and 16 handlers and registers the one endpoint. *)
Theorem app_setup_http_outcome led w res w' :
  app_setup_http led w = (res, w') ->
  let h := mk_hal None app_cfg [descriptor (led_ep led)] 4%N in
  let c := mk_httpd_config (server_port HTTPD_DEFAULT_CONFIG) true 16 in
  match res with
  | Some s_http =>
      s_http = Some h /\
      w_trace w' = w_trace w ++ [EvCalloc sizeof_http_hal_t true;
                                 EvRealloc (4 * sizeof_httpd_uri_t)%N true]
  | None =>
      w_trace w' = w_trace w ++ [EvCalloc sizeof_http_hal_t false] \/
      w_trace w' = w_trace w ++ [EvCalloc sizeof_http_hal_t true;
                                 EvRealloc (4 * sizeof_httpd_uri_t)%N false]
  end /\
  forall w2 hd e1,
    env_httpd_start c (w_env w2) = ((ESP_OK, Some hd), e1) ->
    exists a e2,
      http_hal_start (Some h) w2 =
        ((ESP_OK, Some (set_server h (Some hd))),
         mk_world e2
           (w_trace w2 ++
            [EvHttpdStart c ESP_OK (Some hd);
             EvRegisterUriHandler (Some hd) (descriptor (led_ep led)) a])).
Proof.
  intros Hset h c. split.
  - set (h0 := mk_hal None app_cfg [] 0%N).
    assert (Hinit : http_hal_init true (Some app_cfg) w =
              let (p, e1) := env_calloc sizeof_http_hal_t (w_env w) in
              ((if p then ESP_OK else ESP_ERR_NO_MEM,
                if p then Some h0 else None),
               mk_world e1 (w_trace w ++ [EvCalloc sizeof_http_hal_t p]))).
    { unfold http_hal_init, bind, calloc, call, ret.
      destruct (env_calloc _ (w_env w)) as [[|] e1]; reflexivity. }
    assert (Hreg : forall w1,
              http_hal_register_endpoint (Some h0) (Some (led_ep led)) w1 =
              let (p, e2) :=
                env_realloc (4 * sizeof_httpd_uri_t)%N (w_env w1) in
              ((if p then ESP_OK else ESP_ERR_NO_MEM,
                Some (if p then h else h0)),
               mk_world e2
                 (w_trace w1 ++ [EvRealloc (4 * sizeof_httpd_uri_t)%N p]))).
    { intros w1.
      pose proof (ensure_capacity_cases h0 (uris_len h0 + 1) w1) as Hc.
      change (uris_len h0 + 1 <=? uris_cap h0)%N with false in Hc.
      cbv zeta in Hc.
      change (double_until _ _ _) with 4%N in Hc.
      destruct (env_realloc (4 * sizeof_httpd_uri_t)%N (w_env w1))
        as [[|] e2];
        rewrite (register_valid h0 (led_ep led) w1 "/api/led"%string led
                   _ _ _ eq_refl eq_refl Hc); reflexivity. }
    revert Hset. unfold app_setup_http. unfold bind at 1. rewrite Hinit.
    destruct (env_calloc _ (w_env w)) as [[|] e1]; cbn [fst snd].
    + change (is_ok ESP_OK) with true. cbn [negb].
      unfold bind at 1. rewrite Hreg. cbn [w_env w_trace].
      destruct (env_realloc _ e1) as [[|] e2]; cbn [fst snd].
      * change (is_ok ESP_OK) with true. cbn [negb]. unfold ret.
        intros E; inversion E; subst. cbn [w_trace].
        rewrite <- app_assoc. auto.
      * change (is_ok ESP_ERR_NO_MEM) with false. cbn [negb].
        unfold ret. intros E; inversion E; subst. cbn [w_trace].
        rewrite <- app_assoc. auto.
    + change (is_ok ESP_ERR_NO_MEM) with false. cbn [negb].
      unfold ret. intros E; inversion E; subst. auto.
  - intros w2 hd e1 Hup.
    assert (Hc : fill_httpd_config (cfg h) = c) by reflexivity.
    pose proof (start_stopped h w2 ESP_OK (Some hd) e1 eq_refl) as Hst.
    rewrite Hc in Hst. specialize (Hst Hup). rewrite Hst.
    change (is_ok ESP_OK) with true. cbv iota.
    change (uris h) with [descriptor (led_ep led)].
    cbn [register_answers].
    destruct (env_httpd_register_uri_handler _ _ e1) as [a e2].
    exists a, e2. reflexivity.
Qed.

End RegistryExtras.

(** * Further properties of the LED endpoint *)

Lemma map_tolower_length s :
  String.length (CStr.map_tolower s) = String.length s.
Proof. induction s as [|c s IH]; simpl; [reflexivity | now rewrite IH]. Qed.

Lemma map_tolower_take n s :
  CStr.map_tolower (CStr.take n s) = CStr.take n (CStr.map_tolower s).
Proof.
  revert s; induction n as [|n IH]; intros [|c s]; simpl; try reflexivity.
  now rewrite IH.
Qed.

Lemma streq_length a b :
  String.length a <> String.length b -> CStr.streq a b = false.
Proof.
  intros Hl. unfold CStr.streq. apply String.eqb_neq. intros ->. now elim Hl.
Qed.

Lemma take_length_long n s :
  (n <= String.length s)%nat -> String.length (CStr.take n s) = n.
Proof. apply take_exact. Qed.

(** Cutting the value to 15 characters changes no verdict. *)
Lemma parse_state_untruncated s v :
  parse_state (Some s) (Some v) = verdict (CStr.map_tolower s) v.
Proof.
  unfold parse_state, verdict, CStr.streq. cbn [existsb].
  destruct (Nat.le_gt_cases (String.length s) 15) as [Hle|Hgt].
  - rewrite (take_all 15 s Hle). rewrite !orb_false_r, !orb_assoc.
    reflexivity.
  - assert (H15 : String.length (CStr.map_tolower (CStr.take 15 s)) = 15%nat)
      by (rewrite map_tolower_length; apply take_exact; lia).
    assert (Hs : String.length (CStr.map_tolower s) = String.length s)
      by apply map_tolower_length.
    assert (Hno : forall x t, (String.length t <= 5)%nat ->
                    (15 <= String.length x)%nat -> String.eqb x t = false).
    { intros x t Ht Hx. apply String.eqb_neq. intros ->. lia. }
    rewrite !(Hno (CStr.map_tolower (CStr.take 15 s)))
      by (try rewrite H15; simpl String.length; lia).
    rewrite !(Hno (CStr.map_tolower s))
      by (try rewrite Hs; simpl String.length; lia).
    reflexivity.
Qed.

Lemma tolower_idem c : CStr.tolower (CStr.tolower c) = CStr.tolower c.
Proof.
  destruct c as [b0 b1 b2 b3 b4 b5 b6 b7].
  destruct b0, b1, b2, b3, b4, b5, b6, b7; reflexivity.
Qed.

Lemma map_tolower_idem s :
  CStr.map_tolower (CStr.map_tolower s) = CStr.map_tolower s.
Proof.
  induction s as [|c s IH]; simpl; [reflexivity|].
  now rewrite tolower_idem, IH.
Qed.

(** X14.  [parse_state] accepts a value exactly when its lower-case text is
    one of six words: [1], [on], [true] give 1 and [0], [off], [false] give
    0; anything else is rejected and the variable behind [out_level] keeps
    its value.  The cut to 15 characters never makes a longer value pass: a
    value of more than 15 characters is always rejected. *)
Theorem parse_state_words s v :
  let t := CStr.map_tolower s in
  parse_state (Some s) (Some v) =
    (if existsb (String.eqb t) ["1"; "on"; "true"]%string
     then (true, Some 1)
     else if existsb (String.eqb t) ["0"; "off"; "false"]%string
     then (true, Some 0)
     else (false, Some v)) /\
  ((15 < String.length s)%nat ->
   parse_state (Some s) (Some v) = (false, Some v)).
Proof.
  intros t. split; [apply parse_state_untruncated|].
  intros Hl. rewrite parse_state_untruncated. unfold verdict. cbn [existsb].
  assert (Hno : forall w, (String.length w <= 5)%nat ->
                  String.eqb (CStr.map_tolower s) w = false).
  { intros w Hw. apply String.eqb_neq. intros E.
    pose proof (map_tolower_length s) as Hs. rewrite E in Hs. lia. }
  rewrite !Hno by (simpl; lia). reflexivity.
Qed.

(** X15.  [parse_state] does not look at letter case: two values with the
    same lower-case text get the same verdict, so a value and its
    lower-case text do. *)
Theorem parse_state_ignores_case a b o :
  CStr.map_tolower a = CStr.map_tolower b ->
  parse_state (Some a) o = parse_state (Some b) o /\
  parse_state (Some (CStr.map_tolower a)) o = parse_state (Some a) o.
Proof.
  intros E. destruct o as [v|]; [|split; reflexivity].
  rewrite !parse_state_untruncated, map_tolower_idem, E. split; reflexivity.
Qed.

(** X16.  With the LED active high, the two level conversions both send 0
    to 0 and everything else to 1; each undoes the other on 0 and 1, and
    neither ever gives anything but 0 or 1. *)
Theorem gpio_logical_round_trip x :
  let n := if x =? 0 then 0 else 1 in
  gpio_level_from_logical x = n /\
  logical_from_gpio_level x = n /\
  logical_from_gpio_level (gpio_level_from_logical x) = n /\
  gpio_level_from_logical (logical_from_gpio_level x) = n /\
  (is_bit x = true ->
   logical_from_gpio_level (gpio_level_from_logical x) = x /\
   gpio_level_from_logical (logical_from_gpio_level x) = x).
Proof.
  unfold gpio_level_from_logical, logical_from_gpio_level, is_bit.
  cbn [LED_ACTIVE_LOW].
  destruct (Z.eqb_spec x 0) as [->|Hx]; cbn.
  - repeat split; reflexivity.
  - repeat split; try reflexivity;
      destruct (Z.eqb_spec x 1); try discriminate; intros; lia.
Qed.

Lemma parse_state_shape s v :
  parse_state (Some s) (Some v) = (true, Some 1) \/
  parse_state (Some s) (Some v) = (true, Some 0) \/
  parse_state (Some s) (Some v) = (false, Some v).
Proof.
  rewrite parse_state_untruncated. unfold verdict.
  destruct (existsb _ _); [auto|]. destruct (existsb _ _); auto.
Qed.

Section HandlerExtras.
Context {Env : Type} `{Platform Env}.

(** The reply block: one 200 reply, variables untouched. *)
Lemma led_reply_spec req g w :
  exists a1 a2 a3 e',
    led_reply req g w =
      ((ESP_OK, g),
       mk_world e'
         (w_trace w ++
          json_reply req "200"
            (CStr.snprintf 80
               (led_json
                  (logical_from_gpio_level
                     (if log_request g then logical g else lvl g))
                  (if log_request g then logical g else lvl g)))
            a1 a2 a3)).
Proof.
  unfold led_reply. unfold bind at 1. rewrite send_json_spec. cbv zeta.
  change (CStr.snprintf 32 (CStr.fmt_d 200)) with "200"%string.
  destruct (env_httpd_resp_set_status _ _ _) as [a1 e1].
  destruct (env_httpd_resp_set_type _ _ _) as [a2 e2].
  destruct (env_httpd_resp_send _ _ _) as [a3 e3].
  exists a1, a2, a3, e3. reflexivity.
Qed.

(** The [level] block, by what the query holds. *)
Lemma led_level_param_cases req query g w :
  let kv := httpd_query_key_value query "level" 8 in
  (is_ok (fst kv) = false /\
   led_level_param req query g w = ((inr tt, g), w)) \/
  (is_ok (fst kv) = true /\
   parse_state (Some (snd kv)) (Some (lvl g)) = (false, Some (lvl g)) /\
   exists a e',
     led_level_param req query g w =
       ((inl a, g),
        mk_world e'
          (w_trace w ++
           [EvRespSendErr req HTTPD_400_BAD_REQUEST
              "Invalid level (use 0 or 1)" a]))) \/
  (is_ok (fst kv) = true /\
   exists v a e',
     parse_state (Some (snd kv)) (Some (lvl g)) = (true, Some v) /\
     is_bit v = true /\
     led_level_param req query g w =
       ((inr tt, mk_globals (log_request g) v (logical g)),
        mk_world e'
          (w_trace w ++ [EvGpioSetLevel GPIO_OUT v a]))).
Proof.
  intros kv. unfold led_level_param. fold kv.
  destruct (is_ok (fst kv)); [right | left; split; reflexivity].
  destruct (parse_state_shape (snd kv) (lvl g)) as [E|[E|E]]; rewrite E.
  - right. split; [reflexivity|]. cbn [negb lvl].
    unfold bind, gpio_set_level, call, ret.
    change (gpio_level_from_logical 1) with 1.
    destruct (env_gpio_set_level _ _ _) as [a e'].
    exists 1, a, e'. repeat split.
  - right. split; [reflexivity|]. cbn [negb lvl].
    unfold bind, gpio_set_level, call, ret.
    change (gpio_level_from_logical 0) with 0.
    destruct (env_gpio_set_level _ _ _) as [a e'].
    exists 0, a, e'. repeat split.
  - left. split; [reflexivity|]. split; [reflexivity|]. cbn [negb].
    unfold bind at 1. rewrite send_err_400.
    unfold httpd_resp_send_err, call, ret.
    destruct (env_httpd_resp_send_err _ _ _ _) as [a e'].
    exists a, e'. destruct g; reflexivity.
Qed.

(** The [state] block, by what the query holds. *)
Lemma led_state_param_cases req query g w :
  let kv := httpd_query_key_value query "state" 16 in
  (is_ok (fst kv) = false /\
   led_state_param req query g w = ((inr tt, g), w)) \/
  (is_ok (fst kv) = true /\
   parse_state (Some (snd kv)) (Some (logical g))
     = (false, Some (logical g)) /\
   exists a e',
     led_state_param req query g w =
       ((inl a, g),
        mk_world e'
          (w_trace w ++
           [EvRespSendErr req HTTPD_400_BAD_REQUEST
              "Invalid state (use on/off/true/false)" a]))) \/
  (is_ok (fst kv) = true /\
   exists v a e',
     parse_state (Some (snd kv)) (Some (logical g)) = (true, Some v) /\
     is_bit v = true /\
     led_state_param req query g w =
       ((inr tt, mk_globals true (lvl g) v),
        mk_world e'
          (w_trace w ++ [EvGpioSetLevel GPIO_OUT v a]))).
Proof.
  intros kv. unfold led_state_param. fold kv.
  destruct (is_ok (fst kv)); [right | left; split; reflexivity].
  destruct (parse_state_shape (snd kv) (logical g)) as [E|[E|E]]; rewrite E.
  - right. split; [reflexivity|]. cbn [negb lvl logical].
    unfold bind, gpio_set_level, call, ret.
    change (gpio_level_from_logical 1) with 1.
    destruct (env_gpio_set_level _ _ _) as [a e'].
    exists 1, a, e'. repeat split.
  - right. split; [reflexivity|]. cbn [negb lvl logical].
    unfold bind, gpio_set_level, call, ret.
    change (gpio_level_from_logical 0) with 0.
    destruct (env_gpio_set_level _ _ _) as [a e'].
    exists 0, a, e'. repeat split.
  - left. split; [reflexivity|]. split; [reflexivity|]. cbn [negb].
    unfold bind at 1. rewrite send_err_400.
    unfold httpd_resp_send_err, call, ret.
    destruct (env_httpd_resp_send_err _ _ _ _) as [a e'].
    exists a, e'. destruct g; reflexivity.
Qed.

(** The handler after its first call. *)
Lemma led_get_handler_unfold req g w :
  led_get_handler req g w =
    let q := env_httpd_req_get_url_query_str req 96 (w_env w) in
    if is_ok (fst q) then
      match led_level_param req (snd q) g w with
      | ((inl e, g1), w1) => ((e, g1), w1)
      | ((inr _, g1), w1) =>
          match led_state_param req (snd q) g1 w1 with
          | ((inl e, g2), w2) => ((e, g2), w2)
          | ((inr _, g2), w2) => led_reply req g2 w2
          end
      end
    else led_reply req g w.
Proof.
  unfold led_get_handler, bind at 1, httpd_req_get_url_query_str.
  cbv zeta. destruct (is_ok (fst _)); [|reflexivity].
  unfold bind at 1.
  destruct (led_level_param _ _ _ _) as [[[e|[]] g1] w1]; [reflexivity|].
  unfold bind at 1.
  destruct (led_state_param _ _ _ _) as [[[e|[]] g2] w2]; reflexivity.
Qed.

End HandlerExtras.

Section HandlerTheorems.
Context {Env : Type} `{Platform Env}.

(** X17.  The handler keeps [lvl] and [logical] within 0 and 1, and it
    never resets [log_request]: once a [state] request has set it, it stays
    set. *)
Theorem led_handler_keeps_bits req g w r g' w' :
  led_get_handler req g w = ((r, g'), w') ->
  (globals_ok g = true -> globals_ok g' = true) /\
  (log_request g = true -> log_request g' = true).
Proof.
  assert (Hbits : forall a b, is_bit a = true -> is_bit b = true ->
                    is_bit a && is_bit b = true)
    by (intros a b -> ->; reflexivity).
  assert (Hfin : forall g1 : globals,
            (globals_ok g = true -> globals_ok g1 = true) ->
            (log_request g = true -> log_request g1 = true) ->
            forall x y, (x, g1, y) = (r, g', w') ->
            (globals_ok g = true -> globals_ok g' = true) /\
            (log_request g = true -> log_request g' = true)).
  { intros g1 H1 H2 x y E. inversion E; subst. auto. }
  assert (Hreply : forall g1 w1,
            (globals_ok g = true -> globals_ok g1 = true) ->
            (log_request g = true -> log_request g1 = true) ->
            led_reply req g1 w1 = (r, g', w') ->
            (globals_ok g = true -> globals_ok g' = true) /\
            (log_request g = true -> log_request g' = true)).
  { intros g1 w1 H1 H2.
    destruct (led_reply_spec req g1 w1) as (a1 & a2 & a3 & e3 & Er).
    rewrite Er. apply Hfin; assumption. }
  assert (Hl : forall v, is_bit v = true -> globals_ok g = true ->
                 globals_ok (mk_globals (log_request g) v (logical g)) = true).
  { intros v Bv Hg. unfold globals_ok in *. simpl.
    apply andb_prop in Hg. apply Hbits; tauto. }
  rewrite led_get_handler_unfold. cbv zeta.
  destruct (is_ok (fst _)); [|apply Hreply; auto].
  destruct (led_level_param_cases req
              (snd (env_httpd_req_get_url_query_str req 96 (w_env w))) g w)
    as [[_ El]|[(_ & _ & a & e1 & El)|(_ & v & a & e1 & _ & Bv & El)]];
    rewrite El; clear El.
  - destruct (led_state_param_cases req
                (snd (env_httpd_req_get_url_query_str req 96 (w_env w))) g w)
      as [[_ Es]|[(_ & _ & b & e2 & Es)|(_ & u & b & e2 & _ & Bu & Es)]];
      rewrite Es; clear Es.
    + apply Hreply; auto.
    + apply Hfin; auto.
    + apply Hreply; [|reflexivity].
      intros Hg. unfold globals_ok in *. simpl.
      apply andb_prop in Hg. apply Hbits; tauto.
  - apply Hfin; auto.
  - match goal with
    | |- context [led_state_param ?r0 ?q ?g1 ?w1] =>
        destruct (led_state_param_cases r0 q g1 w1)
          as [[_ Es]|[(_ & _ & b & e2 & Es)|(_ & u & b & e2 & _ & Bu & Es)]];
        rewrite Es; clear Es
    end.
    + apply Hreply; auto.
    + apply Hfin; auto.
    + apply Hreply; [|reflexivity].
      intros Hg. unfold globals_ok. simpl. apply Hbits; assumption.
Qed.

(** X18.  Whatever the request, the handler replies exactly once and the
    reply is the last thing it does: either the 400 reply of the server
    library, whose answer the handler returns, or one 200 reply, with
    [ESP_OK] returned.  Before the reply it has written the pin at most
    twice, each time 0 or 1 to [GPIO_OUT], and has done nothing else. *)
Theorem led_handler_replies_once req g w r g' w' :
  led_get_handler req g w = ((r, g'), w') ->
  exists writes reply,
    w_trace w' = w_trace w ++ writes ++ reply /\
    (List.length writes <= 2)%nat /\
    forallb (is_bit_write GPIO_OUT) writes = true /\
    ((exists m, reply = [EvRespSendErr req HTTPD_400_BAD_REQUEST m r]) \/
     (r = ESP_OK /\
      exists body a1 a2 a3, reply = json_reply req "200" body a1 a2 a3)).
Proof.
  assert (Hw : forall v a, is_bit v = true ->
                 is_bit_write GPIO_OUT (EvGpioSetLevel GPIO_OUT v a) = true)
    by (intros v a Hv; simpl; now rewrite Z.eqb_refl, Hv).
  rewrite led_get_handler_unfold. cbv zeta.
  destruct (is_ok (fst _)).
  - destruct (led_level_param_cases req
                (snd (env_httpd_req_get_url_query_str req 96 (w_env w))) g w)
      as [[_ El]|[(_ & _ & a & e1 & El)|(_ & v & a & e1 & _ & Bv & El)]];
      rewrite El; clear El.
    + destruct (led_state_param_cases req
                  (snd (env_httpd_req_get_url_query_str req 96 (w_env w)))
                  g w)
        as [[_ Es]|[(_ & _ & b & e2 & Es)|(_ & u & b & e2 & _ & Bu & Es)]];
        rewrite Es; clear Es.
      * destruct (led_reply_spec req g w) as (a1 & a2 & a3 & e3 & Er).
        rewrite Er. intros E; inversion E; subst.
        exists []. eexists. split; [reflexivity|].
        split; [simpl; lia|]. split; [reflexivity|]. right. split; [reflexivity|]. do 4 eexists. reflexivity.
      * intros E; inversion E; subst.
        exists []. eexists. split; [reflexivity|].
        split; [simpl; lia|]. split; [reflexivity|]. left. eexists. reflexivity.
      * match goal with
        | |- context [led_reply ?r0 ?g2 ?w2] =>
            destruct (led_reply_spec r0 g2 w2) as (a1 & a2 & a3 & e3 & Er)
        end.
        rewrite Er. intros E; inversion E; subst. cbn [w_trace].
        exists [EvGpioSetLevel GPIO_OUT u b]. eexists.
        split; [rewrite <- app_assoc; reflexivity|].
        split; [simpl; lia|].
        split; [cbn [forallb]; now rewrite Hw|]. right. split; [reflexivity|]. do 4 eexists. reflexivity.
    + intros E; inversion E; subst.
      exists []. eexists. split; [reflexivity|].
      split; [simpl; lia|]. split; [reflexivity|]. left. eexists. reflexivity.
    + match goal with
      | |- context [led_state_param ?r0 ?q ?g1 ?w1] =>
          destruct (led_state_param_cases r0 q g1 w1)
            as [[_ Es]|[(_ & _ & b & e2 & Es)|(_ & u & b & e2 & _ & Bu & Es)]];
          rewrite Es; clear Es
      end.
      * match goal with
        | |- context [led_reply ?r0 ?g2 ?w2] =>
            destruct (led_reply_spec r0 g2 w2) as (a1 & a2 & a3 & e3 & Er)
        end.
        rewrite Er. intros E; inversion E; subst. cbn [w_trace].
        exists [EvGpioSetLevel GPIO_OUT v a]. eexists.
        split; [rewrite <- app_assoc; reflexivity|].
        split; [simpl; lia|].
        split; [cbn [forallb]; now rewrite Hw|]. right. split; [reflexivity|]. do 4 eexists. reflexivity.
      * intros E; inversion E; subst. cbn [w_trace].
        exists [EvGpioSetLevel GPIO_OUT v a]. eexists.
        split; [rewrite <- app_assoc; reflexivity|].
        split; [simpl; lia|].
        split; [cbn [forallb]; now rewrite Hw|]. left. eexists. reflexivity.
      * match goal with
        | |- context [led_reply ?r0 ?g2 ?w2] =>
            destruct (led_reply_spec r0 g2 w2) as (a1 & a2 & a3 & e3 & Er)
        end.
        rewrite Er. intros E; inversion E; subst. cbn [w_trace].
        exists [EvGpioSetLevel GPIO_OUT v a; EvGpioSetLevel GPIO_OUT u b].
        eexists.
        split; [rewrite <- !app_assoc; reflexivity|].
        split; [simpl; lia|].
        split; [cbn [forallb]; now rewrite !Hw|]. right. split; [reflexivity|]. do 4 eexists. reflexivity.
  - destruct (led_reply_spec req g w) as (a1 & a2 & a3 & e3 & Er).
    rewrite Er. intros E; inversion E; subst.
    exists []. eexists. split; [reflexivity|].
    split; [simpl; lia|]. split; [reflexivity|]. right. split; [reflexivity|]. do 4 eexists. reflexivity.
Qed.

End HandlerTheorems.

(** The 200 text of a level of 0 or 1 fits the 80 bytes of [resp]. *)
Lemma led_json_fits b :
  is_bit b = true ->
  CStr.snprintf 80 (led_json (logical_from_gpio_level b) b) = led_json b b.
Proof.
  unfold is_bit. intros Hb. apply orb_prop in Hb.
  destruct Hb as [E|E]; apply Z.eqb_eq in E; subst; reflexivity.
Qed.

Section HandlerReplies.
Context {Env : Type} `{Platform Env}.

(** X19.  A request without a query string, or whose query holds neither a
    [level] nor a [state] value that fits its buffer, is not rejected: the
    handler writes no pin, changes no variable and answers 200 with the
    current state, which is [logical] once [log_request] is set and [lvl]
    before.  With the variables at 0 or 1 the text is sent whole. *)
Theorem led_query_without_parameters req g w :
  let q := env_httpd_req_get_url_query_str req 96 (w_env w) in
  let cur := if log_request g then logical g else lvl g in
  is_ok (fst q) = false \/
  (is_ok (fst (httpd_query_key_value (snd q) "level" 8)) = false /\
   is_ok (fst (httpd_query_key_value (snd q) "state" 16)) = false) ->
  (exists a1 a2 a3 e',
     led_get_handler req g w =
       ((ESP_OK, g),
        mk_world e'
          (w_trace w ++
           json_reply req "200"
             (CStr.snprintf 80 (led_json (logical_from_gpio_level cur) cur))
             a1 a2 a3))) /\
  (globals_ok g = true ->
   CStr.snprintf 80 (led_json (logical_from_gpio_level cur) cur)
     = led_json cur cur).
Proof.
  intros q cur Hq. split.
  - rewrite led_get_handler_unfold. cbv zeta. fold q.
    destruct (is_ok (fst q)) eqn:Hok.
    + destruct Hq as [Hq|[Hl Hs]]; [discriminate|].
      destruct (led_level_param_cases req (snd q) g w)
        as [[_ El]|[(Hl' & _)|(Hl' & _)]];
        try (cbv zeta in Hl'; rewrite Hl in Hl'; discriminate).
      rewrite El.
      destruct (led_state_param_cases req (snd q) g w)
        as [[_ Es]|[(Hs' & _)|(Hs' & _)]];
        try (cbv zeta in Hs'; rewrite Hs in Hs'; discriminate).
      rewrite Es. apply led_reply_spec.
    + apply led_reply_spec.
  - intros Hg. apply led_json_fits. unfold globals_ok in Hg.
    apply andb_prop in Hg. unfold cur. destruct (log_request g); tauto.
Qed.

(** X20.  A request with an accepted [level] value [v] and no [state]
    value stores [v] in [lvl], writes [v] to the pin and answers 200.  The
    level in the answer is [v] only while [log_request] is unset; once a
    [state] request has set it, the answer reports [logical], whatever was
    just written to the pin. *)
Theorem led_level_request req g w v :
  let q := env_httpd_req_get_url_query_str req 96 (w_env w) in
  let lv := httpd_query_key_value (snd q) "level" 8 in
  let cur := if log_request g then logical g else v in
  is_ok (fst q) = true ->
  is_ok (fst lv) = true ->
  parse_state (Some (snd lv)) (Some (lvl g)) = (true, Some v) ->
  is_ok (fst (httpd_query_key_value (snd q) "state" 16)) = false ->
  exists a a1 a2 a3 e',
    led_get_handler req g w =
      ((ESP_OK, mk_globals (log_request g) v (logical g)),
       mk_world e'
         (w_trace w ++
          EvGpioSetLevel GPIO_OUT v a ::
          json_reply req "200"
            (CStr.snprintf 80 (led_json (logical_from_gpio_level cur) cur))
            a1 a2 a3)).
Proof.
  intros q lv cur Hq Hl Hp Hs.
  rewrite led_get_handler_unfold. cbv zeta. fold q. rewrite Hq.
  destruct (led_level_param_cases req (snd q) g w)
    as [[Hl' _]|[(_ & Hp' & _)|(_ & v' & a & e1 & Hp' & Bv & El)]].
  - cbv zeta in Hl'. fold lv in Hl'. rewrite Hl in Hl'. discriminate.
  - cbv zeta in Hp'. fold lv in Hp'. rewrite Hp in Hp'. discriminate.
  - cbv zeta in Hp'. fold lv in Hp'. rewrite Hp in Hp'.
    inversion Hp'; subst v'. rewrite El.
    match goal with
    | |- context [led_state_param ?r0 ?q0 ?g1 ?w1] =>
        destruct (led_state_param_cases r0 q0 g1 w1)
          as [[_ Es]|[(Hs' & _)|(Hs' & _)]];
        try (cbv zeta in Hs'; rewrite Hs in Hs'; discriminate)
    end.
    rewrite Es.
    match goal with
    | |- context [led_reply ?r0 ?g2 ?w2] =>
        destruct (led_reply_spec r0 g2 w2) as (a1 & a2 & a3 & e3 & Er)
    end.
    rewrite Er. exists a, a1, a2, a3, e3. cbn [w_trace log_request lvl logical].
    rewrite <- app_assoc. reflexivity.
Qed.

(** X21.  A request with an accepted [state] value [u], and a [level]
    value that is absent or accepted, sets [log_request], stores [u] in
    [logical], writes [u] to the pin last, after at most one write for
    [level], and answers 200 with the level [u]: here the answer and the
    pin agree. *)
Theorem led_state_request req g w u :
  let q := env_httpd_req_get_url_query_str req 96 (w_env w) in
  let lv := httpd_query_key_value (snd q) "level" 8 in
  let st := httpd_query_key_value (snd q) "state" 16 in
  is_ok (fst q) = true ->
  is_ok (fst lv) = false \/
    fst (parse_state (Some (snd lv)) (Some (lvl g))) = true ->
  is_ok (fst st) = true ->
  parse_state (Some (snd st)) (Some (logical g)) = (true, Some u) ->
  exists pre l a a1 a2 a3 e',
    led_get_handler req g w =
      ((ESP_OK, mk_globals true l u),
       mk_world e'
         (w_trace w ++ pre ++
          EvGpioSetLevel GPIO_OUT u a ::
          json_reply req "200" (led_json u u) a1 a2 a3)) /\
    (List.length pre <= 1)%nat /\
    forallb (is_bit_write GPIO_OUT) pre = true.
Proof.
  intros q lv st Hq Hl Hs Hp.
  rewrite led_get_handler_unfold. cbv zeta. fold q. rewrite Hq.
  assert (Hstate : forall g1 w1 pre,
            logical g1 = logical g ->
            w_trace w1 = w_trace w ++ pre ->
            exists a a1 a2 a3 e',
              match led_state_param req (snd q) g1 w1 with
              | (inl e, g2, w2) => (e, g2, w2)
              | (inr _, g2, w2) => led_reply req g2 w2
              end =
              ((ESP_OK, mk_globals true (lvl g1) u),
               mk_world e'
                 (w_trace w ++ pre ++
                  EvGpioSetLevel GPIO_OUT u a ::
                  json_reply req "200" (led_json u u) a1 a2 a3))).
  { intros g1 w1 pre Hlog Htr.
    destruct (led_state_param_cases req (snd q) g1 w1)
      as [[Hs' _]|[(_ & Hp' & _)|(_ & u' & a & e1 & Hp' & Bu & Es)]].
    - cbv zeta in Hs'. fold st in Hs'. rewrite Hs in Hs'. discriminate.
    - cbv zeta in Hp'. fold st in Hp'. rewrite Hlog, Hp in Hp'.
      discriminate.
    - cbv zeta in Hp'. fold st in Hp'. rewrite Hlog, Hp in Hp'.
      inversion Hp'; subst u'. rewrite Es.
      match goal with
      | |- context [led_reply ?r0 ?g2 ?w2] =>
          destruct (led_reply_spec r0 g2 w2) as (a1 & a2 & a3 & e3 & Er)
      end.
      rewrite Er. exists a, a1, a2, a3, e3.
      cbn [w_trace log_request lvl logical].
      rewrite (led_json_fits u Bu), Htr, <- !app_assoc. reflexivity. }
  destruct (led_level_param_cases req (snd q) g w)
    as [[_ El]|[(Hl' & Hp' & _)|(_ & v & a & e1 & _ & Bv & El)]].
  - rewrite El.
    destruct (Hstate g w [] eq_refl) as (a & a1 & a2 & a3 & e' & E);
      [now rewrite app_nil_r|].
    exists [], (lvl g), a, a1, a2, a3, e'. rewrite E. repeat split.
    simpl; lia.
  - cbv zeta in Hl', Hp'. fold lv in Hl', Hp'.
    destruct Hl as [Hl|Hl]; [rewrite Hl in Hl' | rewrite Hp' in Hl];
      discriminate.
  - rewrite El.
    destruct (Hstate (mk_globals (log_request g) v (logical g))
                (mk_world e1 (w_trace w ++ [EvGpioSetLevel GPIO_OUT v a]))
                [EvGpioSetLevel GPIO_OUT v a] eq_refl eq_refl)
      as (a0 & a1 & a2 & a3 & e' & E).
    exists [EvGpioSetLevel GPIO_OUT v a], v, a0, a1, a2, a3, e'.
    rewrite E. split; [reflexivity|]. split; [simpl; lia|].
    simpl. now rewrite Z.eqb_refl, Bv.
Qed.

End HandlerReplies.

(** ** Further runs on the reference platform *)

(** Witness of X1: the first growth of a fresh instance. *)
Lemma ensure_capacity_grows_witness :
  let r := ensure_capacity fresh 1 world0 in
  uris_cap (snd (fst r)) = 4%N /\
  w_trace (snd r) = [EvRealloc 64 true].
Proof.
  intros r.
  assert (Hr : ensure_capacity fresh 1 world0
               = ((fst (fst r), snd (fst r)), snd r))
    by (vm_compute; reflexivity).
  assert (H1 : (0 < sizeof_httpd_uri_t)%N) by reflexivity.
  assert (H2 : (4 * sizeof_httpd_uri_t < 2 ^ 32)%N) by reflexivity.
  assert (H3 : (2 * uris_cap fresh * sizeof_httpd_uri_t < 2 ^ 32)%N)
    by reflexivity.
  assert (H4 : (2 * 1 * sizeof_httpd_uri_t < 2 ^ 32)%N) by reflexivity.
  destruct (ensure_capacity_grows fresh 1 world0 _ _ _ H1 H2 H3 H4 Hr)
    as (_ & _ & _ & _ & _ & Hgrow).
  destruct Hgrow as (k & p & _ & _ & _ & Htr & Hres); [reflexivity|].
  split; vm_compute; reflexivity.
Defined.

(** Witness of X2: five registrations from a fresh instance, with a start
    in between; four slots have become eight. *)
Lemma buffer_stays_ok_witness :
  let e i := mk_endpoint (Some "/r"%string) i (Some 7%N) 0%N in
  let cs := [CallRegister (Some (e 0)); CallRegister (Some (e 1));
             CallStart; CallRegister (Some (e 2));
             CallRegister (Some (e 3)); CallRegister (Some (e 4))] in
  let r := run cs (Some fresh) world0 in
  exists h', snd (fst r) = Some h' /\ buffer_ok h' = true /\
             uris_len h' = 5%N /\ uris_cap h' = 8%N.
Proof.
  intros e cs r.
  assert (Hrun : run cs (Some fresh) world0
                 = ((fst (fst r), snd (fst r)), snd r))
    by (vm_compute; reflexivity).
  assert (Hfresh : buffer_ok fresh = true) by reflexivity.
  destruct (buffer_stays_ok cs fresh world0 _ _ _ Hfresh Hrun)
    as (h' & Hh & Hok).
  exists h'. split; [exact Hh|]. split; [exact Hok|].
  assert (E : snd (fst r) = Some (mk_hal (Some 1%positive) app_cfg
                (map descriptor [e 0; e 1; e 2; e 3; e 4]) 8%N))
    by (vm_compute; reflexivity).
  rewrite E in Hh. inversion Hh; subst h'. split; reflexivity.
Defined.

(** Witness of X3: register, start, unregister, stop, start. *)
Lemma facade_handle_discipline_witness :
  let cs := [CallRegister (Some ep_led); CallStart;
             CallUnregister (Some "/api/led"%string) HTTP_GET;
             CallStop; CallStart] in
  let r := run cs (Some fresh) world0 in
  follows_handle None (w_trace (snd r)) = Some (Some 2%positive) /\
  http_hal_native_handle (snd (fst r)) = Some 2%positive.
Proof.
  intros cs r.
  assert (Hrun : run cs (Some fresh) world0
                 = ((fst (fst r), snd (fst r)), snd r))
    by (vm_compute; reflexivity).
  destruct (facade_handle_discipline cs fresh world0 _ _ _ Hrun)
    as (h' & tr & Hh & Htr & Hf).
  assert (Hn : http_hal_native_handle (snd (fst r)) = Some 2%positive)
    by (vm_compute; reflexivity).
  split; [|exact Hn].
  rewrite Htr. cbn [world0 w_trace app]. rewrite <- Hn. exact Hf.
Defined.

(** Witness of X4: a port beyond 16 bits, started twice; the server is
    asked for 70000 modulo 2^16, which is 4464. *)
Lemma config_snapshot_is_used_witness :
  let h := mk_hal None (mk_config 70000 true 16) [] 0%N in
  let cs := [CallStart; CallStop; CallStart] in
  let r := run cs (Some h) world0 in
  let c := mk_httpd_config 4464 true 16 in
  In (EvHttpdStart c ESP_OK (Some 2%positive)) (w_trace (snd r)) /\
  server_port c = 70000 mod 65536 /\
  httpd_max_uri_handlers c = 16.
Proof.
  intros h cs r c.
  assert (Hrun : run cs (Some h) world0
                 = ((fst (fst r), snd (fst r)), snd r))
    by (vm_compute; reflexivity).
  destruct (config_snapshot_is_used cs h world0 _ _ _ Hrun)
    as (h' & tr & _ & _ & Htr & Hcfg).
  assert (Hin : In (EvHttpdStart c ESP_OK (Some 2%positive))
                   (w_trace (snd r)))
    by (vm_compute; auto 6).
  split; [exact Hin|].
  rewrite Htr in Hin. cbn [world0 w_trace app] in Hin.
  destruct (Hcfg _ _ _ Hin) as (Hport & _ & _ & _ & Hmax).
  split; [exact Hport|]. apply Hmax. simpl. lia.
Defined.

(** Witness of X5: a refused [calloc]. *)
Lemma init_outcomes_witness :
  let r := http_hal_init true (Some app_cfg) world_no_heap in
  fst (fst r) = ESP_ERR_NO_MEM /\ snd (fst r) = None.
Proof.
  intros r.
  assert (Hr : http_hal_init true (Some app_cfg) world_no_heap
               = ((fst (fst r), snd (fst r)), snd r))
    by (vm_compute; reflexivity).
  destruct (init_outcomes true (Some app_cfg) world_no_heap _ _ _ Hr)
    as (Hiff & _ & _ & Hheap).
  destruct Hheap as (p & _ & Hcode); [reflexivity | discriminate |].
  split; vm_compute; reflexivity.
Defined.

(** Witness of X6: a server that does not come up. *)
Lemma start_failure_keeps_backlog_witness :
  let w := mk_world (mk_ref_env 65536 ESP_FAIL ESP_OK ESP_OK 1%positive
                                None 0 [] []) [] in
  http_hal_start (Some backlog3) w =
    ((ESP_FAIL, Some backlog3),
     mk_world (w_env w)
       [EvHttpdStart (mk_httpd_config 80 true 16) ESP_FAIL None]).
Proof.
  intros w.
  assert (Hr : ESP_FAIL <> ESP_OK) by discriminate.
  assert (Hs : server backlog3 = None) by reflexivity.
  assert (Hdown : env_httpd_start (fill_httpd_config (cfg backlog3))
                    (w_env w) = ((ESP_FAIL, None), w_env w))
    by (vm_compute; reflexivity).
  destruct (start_failure_keeps_backlog backlog3 w ESP_FAIL None (w_env w)
              Hs Hdown Hr) as (Hstart & _ & Hsame).
  rewrite Hstart, (Hsame eq_refl). reflexivity.
Defined.

(** Witness of X10: the application's registration before the start. *)
Lemma register_while_stopped_is_local_witness :
  let r := http_hal_register_endpoint (Some fresh) (Some ep_led) world0 in
  fst (fst r) = ESP_OK /\
  exists h', snd (fst r) = Some h' /\ server h' = None /\
             w_trace (snd r) = [EvRealloc 64 true].
Proof.
  intros r.
  assert (Hs0 : server fresh = None) by reflexivity.
  assert (Hr : http_hal_register_endpoint (Some fresh) (Some ep_led) world0
               = ((fst (fst r), snd (fst r)), snd r))
    by (vm_compute; reflexivity).
  destruct (register_while_stopped_is_local fresh ep_led world0 _ _ _
              Hs0 Hr)
    as (h' & tr & Hh & Hs & _ & _ & _).
  split; [reflexivity|]. exists h'.
  split; [exact Hh|]. split; [exact Hs | reflexivity].
Defined.

(** Witness of X11: a reserved code without a message. *)
Lemma emitter_rejects_null_witness :
  http_hal_send_err (Some 1%N) 404 None world0 = (ESP_ERR_INVALID_ARG, world0).
Proof.
  exact (proj2 (emitter_rejects_null (Some 1%N) 404 None world0
                  (or_intror eq_refl))).
Defined.

(** Witness of X12: a message of 90 characters. *)
Lemma send_err_long_message_is_cut_witness :
  let m := ("0123456789012345678901234567890123456789012345678901234567890"
            ++ "12345678901234567890123456789")%string in
  String.length m = 90%nat /\
  exists body,
    String.length body = 95%nat /\
    http_hal_send_err (Some 1%N) 422 (Some m) world0
      = http_hal_send_json (Some 1%N) 422 (Some body) world0.
Proof.
  intros m. split; [reflexivity|].
  destruct (send_err_long_message_is_cut 1%N m 422 world0)
    as (Hsend & Hlen).
  - simpl. intros [E|[E|[E|[E|[E|[]]]]]]; discriminate.
  - simpl. lia.
  - eexists. split; [exact Hlen | exact Hsend].
Defined.

(** Witness of X13: the set-up on a healthy device. *)
Lemma app_setup_http_outcome_witness :
  app_setup_http 7%N world0 =
    (Some (Some (mk_hal None app_cfg [descriptor ep_led] 4%N)),
     mk_world env0 [EvCalloc 32 true; EvRealloc 64 true]).
Proof.
  assert (Hr : app_setup_http 7%N world0
               = (fst (app_setup_http 7%N world0),
                  snd (app_setup_http 7%N world0)))
    by (vm_compute; reflexivity).
  destruct (app_setup_http_outcome 7%N world0 _ _ Hr) as (Hset & _).
  vm_compute. reflexivity.
Defined.

(** Witness of X15: [ON] and [on]. *)
Lemma parse_state_ignores_case_witness :
  parse_state (Some "ON"%string) (Some 0) = (true, Some 1).
Proof.
  assert (Hlow : CStr.map_tolower "ON" = CStr.map_tolower "on")
    by reflexivity.
  destruct (parse_state_ignores_case "ON" "on" (Some 0) Hlow) as (E & _).
  rewrite E. reflexivity.
Defined.

(** Witness of X17 and of X18: a request with a rejected [state] after an
    accepted [level]. *)
Lemma led_handler_keeps_bits_witness :
  let r := led_get_handler 1%N globals_init
             (serving 1%N "level=1&state=bogus") in
  globals_ok (snd (fst r)) = true.
Proof.
  intros r.
  destruct (led_handler_keeps_bits 1%N globals_init
              (serving 1%N "level=1&state=bogus")
              (fst (fst r)) (snd (fst r)) (snd r)) as (Hok & _).
  - vm_compute; reflexivity.
  - apply Hok. reflexivity.
Defined.

Lemma led_handler_replies_once_witness :
  let r := led_get_handler 1%N globals_init
             (serving 1%N "level=1&state=off") in
  exists writes reply,
    w_trace (snd r) = writes ++ reply /\ List.length writes = 2%nat /\
    List.length (filter is_reply reply) = 1%nat.
Proof.
  intros r.
  destruct (led_handler_replies_once 1%N globals_init
              (serving 1%N "level=1&state=off")
              (fst (fst r)) (snd (fst r)) (snd r))
    as (writes & reply & Htr & _ & _ & _).
  - vm_compute; reflexivity.
  - exists [EvGpioSetLevel 2 1 ESP_OK; EvGpioSetLevel 2 0 ESP_OK].
    eexists. split; [vm_compute; reflexivity|]. split; reflexivity.
Defined.

(** Witness of X19: a request without a query string. *)
Lemma led_query_without_parameters_witness :
  exists body,
    led_get_handler 1%N globals_init world0 =
      ((ESP_OK, globals_init),
       mk_world env0 (json_reply 1%N "200" body ESP_OK ESP_OK ESP_OK)) /\
    body = led_json 0 0.
Proof.
  destruct (led_query_without_parameters 1%N globals_init world0)
    as ((a1 & a2 & a3 & e' & Hh) & Hfit).
  - left. reflexivity.
  - eexists. split; [vm_compute; reflexivity | reflexivity].
Defined.

(** Witness of X20: [?level=1] after a [state] request has left
    [log_request] set and [logical] at 0: the pin gets 1, the answer says
    0. *)
Lemma led_level_request_witness :
  led_get_handler 1%N (mk_globals true 0 0) (serving 1%N "level=1") =
    ((ESP_OK, mk_globals true 1 0),
     mk_world (w_env (serving 1%N "level=1"))
       (EvGpioSetLevel 2 1 ESP_OK ::
        json_reply 1%N "200" (led_json 0 0) ESP_OK ESP_OK ESP_OK)).
Proof.
  destruct (led_level_request 1%N (mk_globals true 0 0)
              (serving 1%N "level=1") 1)
    as (a & a1 & a2 & a3 & e' & Hh);
    try (vm_compute; reflexivity).
Defined.

(** Witness of X21: [?level=0&state=ON]. *)
Lemma led_state_request_witness :
  led_get_handler 1%N globals_init (serving 1%N "level=0&state=ON") =
    ((ESP_OK, mk_globals true 0 1),
     mk_world (w_env (serving 1%N "level=0&state=ON"))
       (EvGpioSetLevel 2 0 ESP_OK :: EvGpioSetLevel 2 1 ESP_OK ::
        json_reply 1%N "200" (led_json 1 1) ESP_OK ESP_OK ESP_OK)).
Proof.
  destruct (led_state_request 1%N globals_init
              (serving 1%N "level=0&state=ON") 1)
    as (pre & l & a & a1 & a2 & a3 & e' & Hh & _);
    try (vm_compute; reflexivity).
  right. vm_compute; reflexivity.
Defined.
